(** * PyMCCRON-gui: the RCON service layer

    A shallow embedding of [src/rcon_service/RCONService.py] (the service the
    GUI uses) and of [src/rcon/RCONService.py] (the minimal variant), with the
    [mcipc] client library they drive modelled as an environment whose replies
    are arbitrary. *)

From Stdlib Require Import ZArith List String Ascii Bool Lia DecimalString.
From Stdlib Require Init.Byte Strings.Byte.
Import ListNotations.
Open Scope string_scope.
Open Scope Z_scope.

(** ** Python values *)

(** An exception: its class name and the text [str(e)] gives. *)
Record Exn : Type := mkExn { exn_class : string; exn_str : string }.

Definition RuntimeError (msg : string) : Exn := mkExn "RuntimeError" msg.
Definition ConnectionError (msg : string) : Exn := mkExn "ConnectionError" msg.
Definition AttributeError (msg : string) : Exn := mkExn "AttributeError" msg.

(** The outcome of a Python call: a value, or a raised exception. *)
Inductive Result (A : Type) : Type :=
| Ok (a : A)
| Raise (e : Exn).
Arguments Ok {A} a.
Arguments Raise {A} e.

Definition is_ok {A} (r : Result A) : bool :=
  match r with Ok _ => true | Raise _ => false end.

(** [str(n)] for a Python [int]. *)
Definition str_int (n : Z) : string := NilZero.string_of_int (Z.to_int n).

(** [str(b)] for a Python [bool]. *)
Definition str_bool (b : bool) : string := if b then "True" else "False".

(** A value of type [Union[str, int, bool]] or [Union[int, str]]. *)
Inductive PyVal : Type :=
| VStr (s : string)
| VInt (n : Z)
| VBool (b : bool).

Definition py_str (v : PyVal) : string :=
  match v with
  | VStr s => s
  | VInt n => str_int n
  | VBool b => str_bool b
  end.

(** Truthiness of [Optional[str]] and [Optional[int]] in an [if]. *)
Definition truthy_str (o : option string) : bool :=
  match o with
  | None => false
  | Some s => negb (String.eqb s EmptyString)
  end.

Definition truthy_int (o : option Z) : bool :=
  match o with
  | None => false
  | Some n => negb (Z.eqb n 0)
  end.

(** ** The client library

    [mcipc.rcon.je.Client] is outside the repository.  Every use of it is
    recorded in a trace, and what it answers is read from an environment:
    the reply to the n-th use, for any n.  The theorems hold for every
    environment, hence for every behaviour of the library and of the server
    behind it.  The library raises subclasses of [Exception] only. *)

(** An argument handed to a library method.  A Python [float] is carried as
    its binary64 bit pattern; it is only passed on. *)
Inductive Arg : Type :=
| AStr (s : string)
| AInt (n : Z)
| AFloat (bits : Z)
| ANone.

Definition arg_str (o : option string) : Arg :=
  match o with Some s => AStr s | None => ANone end.

Definition arg_int (o : option Z) : Arg :=
  match o with Some n => AInt n | None => ANone end.

(** A client object is named by the position of its construction in the
    trace. *)
Definition Client : Type := nat.

Inductive Call : Type :=
| CallInit (server : string) (port : Z)
| CallMethod (obj : Client) (name : string) (args : list Arg).

(** What [client.list()] returns: the fields the service reads. *)
Record Players : Type := mkPlayers { players : list string; max : Z }.

Record Library : Type := mkLibrary {
  (** [Client(server, port)] *)
  lib_new : nat -> Result unit;
  (** methods whose value is dropped: [connect], [login], [close] *)
  lib_proc : nat -> Result unit;
  (** methods that return text: [run], [kick], [say], ... *)
  lib_text : nat -> Result string;
  (** [list] *)
  lib_players : nat -> Result Players
}.

(** ** Logging *)

Inductive Level : Type := DEBUG | INFO | ERROR.

Record LogRecord : Type := mkLog { log_level : Level; log_msg : string }.

(** What lies outside the service object: the uses of the library so far and
    the records handed to the logger so far, oldest first. *)
Record World : Type := mkWorld { trace : list Call; log : list LogRecord }.

Definition world0 : World := mkWorld [] [].

(** ** Methods as state transformers

    A method of an object of type [Self] reads the environment, changes the
    object and the world, and returns or raises.  What was changed before an
    exception stays changed. *)

Definition M (Self A : Type) : Type :=
  Library -> Self * World -> Result A * (Self * World).

Definition ret {Self A} (a : A) : M Self A := fun _ st => (Ok a, st).

Definition raise {Self A} (e : Exn) : M Self A := fun _ st => (Raise e, st).

Definition bind {Self A B} (m : M Self A) (k : A -> M Self B) : M Self B :=
  fun lib st =>
    match m lib st with
    | (Ok a, st') => k a lib st'
    | (Raise e, st') => (Raise e, st')
    end.

(** [try: body  except Exception as e: handler e] *)
Definition try_except {Self A} (body : M Self A) (handler : Exn -> M Self A)
  : M Self A :=
  fun lib st =>
    match body lib st with
    | (Ok a, st') => (Ok a, st')
    | (Raise e, st') => handler e lib st'
    end.

(** [try: body  finally: final] *)
Definition try_finally {Self A} (body : M Self A) (final : M Self unit)
  : M Self A :=
  fun lib st =>
    match body lib st with
    | (r, st') =>
        match final lib st' with
        | (Ok _, st'') => (r, st'')
        | (Raise e, st'') => (Raise e, st'')
        end
    end.

Definition get {Self} : M Self Self := fun _ st => (Ok (fst st), st).

Definition modify {Self} (f : Self -> Self) : M Self unit :=
  fun _ st => (Ok tt, (f (fst st), snd st)).

Declare Scope py_scope.
Delimit Scope py_scope with py.
Notation "x <- m ;; k" := (bind m (fun x => k))
  (at level 61, m at next level, right associativity) : py_scope.
Notation "m ;;; k" := (bind m (fun _ => k))
  (at level 61, right associativity) : py_scope.
Open Scope py_scope.

(** One use of the library: the reply is the environment's at this position
    of the trace, and the use is recorded whether it returns or raises. *)
Definition use_lib {Self A} (c : Call) (reply : Library -> nat -> Result A)
  : M Self A :=
  fun lib st =>
    let w := snd st in
    (reply lib (List.length (trace w)),
     (fst st, mkWorld (trace w ++ [c]) (log w))).

Definition new_Client {Self} (server : string) (port : Z) : M Self Client :=
  fun lib st =>
    match use_lib (CallInit server port) lib_new lib st with
    | (Ok _, st') => (Ok (List.length (trace (snd st))), st')
    | (Raise e, st') => (Raise e, st')
    end.

Definition call_proc {Self} (c : Client) (name : string) (args : list Arg)
  : M Self unit :=
  use_lib (CallMethod c name args) lib_proc.

Definition call_text {Self} (c : Client) (name : string) (args : list Arg)
  : M Self string :=
  use_lib (CallMethod c name args) lib_text.

Definition call_list {Self} (c : Client) : M Self Players :=
  use_lib (CallMethod c "list" []) lib_players.

(** [o.name] for an attribute holding a client or [None]. *)
Definition attr {Self} (o : option Client) (name : string) : M Self Client :=
  match o with
  | Some c => ret c
  | None =>
      raise (AttributeError
               ("'NoneType' object has no attribute '" ++ name ++ "'"))
  end.

Definition logger {Self} (lvl : Level) (msg : string) : M Self unit :=
  fun _ st =>
    let w := snd st in
    (Ok tt, (fst st, mkWorld (trace w) (log w ++ [mkLog lvl msg]))).

(** The double-quote character of a command text. *)
Definition dq : string := String "034"%char EmptyString.

(** ** [src/rcon_service/RCONService.py] *)

Module rcon_service.

Record RCONService : Type := mkRCONService {
  server : string;
  port : Z;
  password : string;
  client : option Client;
  _connected : bool
}.

Definition __init__ (server : string) (port : Z) (password : string)
  : RCONService :=
  mkRCONService server port password None false.

Definition set_client (c : option Client) (self : RCONService) : RCONService :=
  mkRCONService (server self) (port self) (password self) c (_connected self).

Definition set_connected (b : bool) (self : RCONService) : RCONService :=
  mkRCONService (server self) (port self) (password self) (client self) b.

Definition Method (A : Type) : Type := M RCONService A.

(** Parameters are explicit; the defaults of the source are
    [reason="Kicked by admin"], [reason="Banned by admin"], [flush=True],
    the empty text for [subtitle], [duration=300], [count=1], and [None]
    for the [item] and [count] of [clear_player_inventory]. *)

Definition connect : Method bool :=
  try_except
    (self <- get ;;
     c <- new_Client (server self) (port self) ;;
     modify (set_client (Some c)) ;;;
     call_proc c "connect" [] ;;;
     call_proc c "login" [AStr (password self)] ;;;
     modify (set_connected true) ;;;
     logger INFO ("Successfully connected to " ++ server self ++ ":"
                    ++ str_int (port self)) ;;;
     ret true)
    (fun e =>
       self <- get ;;
       logger ERROR ("Failed to connect to " ++ server self ++ ":"
                       ++ str_int (port self) ++ ": " ++ exn_str e) ;;;
       modify (set_connected false) ;;;
       raise (ConnectionError
                ("Failed to connect to RCON server: " ++ exn_str e))).

Definition disconnect : Method unit :=
  self <- get ;;
  match client self with
  | Some c =>
      if _connected self then
        try_except
          (call_proc c "close" [] ;;;
           modify (set_connected false) ;;;
           logger INFO "Disconnected from RCON server")
          (fun e => logger ERROR ("Error during disconnect: " ++ exn_str e))
      else ret tt
  | None => ret tt
  end.

Definition _ensure_connected : Method unit :=
  self <- get ;;
  match client self with
  | Some _ =>
      if negb (_connected self) then
        raise (RuntimeError "Not connected. Call connect() first.")
      else ret tt
  | None => raise (RuntimeError "Not connected. Call connect() first.")
  end.

Definition send_command (command : string) : Method string :=
  _ensure_connected ;;;
  try_except
    (self <- get ;;
     c <- attr (client self) "run" ;;
     response <- call_text c "run" [AStr command] ;;
     logger DEBUG ("Command: " ++ command ++ " | Response: " ++ response) ;;;
     ret response)
    (fun e =>
       logger ERROR ("Command execution failed: " ++ exn_str e) ;;;
       raise e).

Definition is_connected (self : RCONService) : bool :=
  _connected self &&
  match client self with Some _ => true | None => false end.

(** Player management *)

Definition get_player_list : Method (list string) :=
  _ensure_connected ;;;
  self <- get ;;
  c <- attr (client self) "list" ;;
  r <- call_list c ;;
  ret (players r).

Definition get_player_count : Method (Z * Z) :=
  _ensure_connected ;;;
  self <- get ;;
  c <- attr (client self) "list" ;;
  list_result <- call_list c ;;
  ret (Z.of_nat (List.length (players list_result)), max list_result).

Definition kick_player (player reason : string) : Method string :=
  _ensure_connected ;;;
  self <- get ;;
  c <- attr (client self) "kick" ;;
  call_text c "kick" [AStr player; AStr reason].

Definition ban_player (player reason : string) : Method string :=
  _ensure_connected ;;;
  self <- get ;;
  c <- attr (client self) "ban" ;;
  call_text c "ban" [AStr player; AStr reason].

Definition pardon_player (player : string) : Method string :=
  _ensure_connected ;;;
  self <- get ;;
  c <- attr (client self) "pardon" ;;
  call_text c "pardon" [AStr player].

Definition op_player (player : string) : Method string :=
  _ensure_connected ;;;
  self <- get ;;
  c <- attr (client self) "op" ;;
  call_text c "op" [AStr player].

Definition deop_player (player : string) : Method string :=
  _ensure_connected ;;;
  self <- get ;;
  c <- attr (client self) "deop" ;;
  call_text c "deop" [AStr player].

Definition whitelist_add (player : string) : Method string :=
  _ensure_connected ;;;
  self <- get ;;
  c <- attr (client self) "whitelist" ;;
  call_text c "whitelist" [AStr "add"; AStr player].

Definition whitelist_remove (player : string) : Method string :=
  _ensure_connected ;;;
  self <- get ;;
  c <- attr (client self) "whitelist" ;;
  call_text c "whitelist" [AStr "remove"; AStr player].

Definition whitelist_list : Method string :=
  _ensure_connected ;;;
  self <- get ;;
  c <- attr (client self) "whitelist" ;;
  call_text c "whitelist" [AStr "list"].

Definition whitelist_on : Method string :=
  _ensure_connected ;;;
  self <- get ;;
  c <- attr (client self) "whitelist" ;;
  call_text c "whitelist" [AStr "on"].

Definition whitelist_off : Method string :=
  _ensure_connected ;;;
  self <- get ;;
  c <- attr (client self) "whitelist" ;;
  call_text c "whitelist" [AStr "off"].

Definition whitelist_reload : Method string :=
  _ensure_connected ;;;
  self <- get ;;
  c <- attr (client self) "whitelist" ;;
  call_text c "whitelist" [AStr "reload"].

(** Server management *)

Definition stop_server : Method string :=
  _ensure_connected ;;;
  self <- get ;;
  c <- attr (client self) "stop" ;;
  call_text c "stop" [].

Definition save_all (flush : bool) : Method string :=
  _ensure_connected ;;;
  let command := if flush then "save-all flush" else "save-all" in
  send_command command.

Definition save_on : Method string :=
  _ensure_connected ;;; send_command "save-on".

Definition save_off : Method string :=
  _ensure_connected ;;; send_command "save-off".

Definition reload_server : Method string :=
  _ensure_connected ;;; send_command "reload".

(** Communication *)

Definition broadcast_message (message : string) : Method string :=
  _ensure_connected ;;;
  self <- get ;;
  c <- attr (client self) "say" ;;
  call_text c "say" [AStr message].

Definition tell_player (player message : string) : Method string :=
  _ensure_connected ;;;
  self <- get ;;
  c <- attr (client self) "tell" ;;
  call_text c "tell" [AStr player; AStr message].

Definition send_title (player title subtitle : string) : Method string :=
  _ensure_connected ;;;
  if negb (String.eqb subtitle EmptyString) then
    send_command
      ("title " ++ player ++ " title {" ++ dq ++ "text" ++ dq ++ ":" ++ dq
         ++ title ++ dq ++ "," ++ dq ++ "color" ++ dq ++ ":" ++ dq ++ "gold"
         ++ dq ++ "} {" ++ dq ++ "text" ++ dq ++ ":" ++ dq ++ subtitle ++ dq
         ++ "," ++ dq ++ "color" ++ dq ++ ":" ++ dq ++ "yellow" ++ dq ++ "}")
  else
    send_command
      ("title " ++ player ++ " title {" ++ dq ++ "text" ++ dq ++ ":" ++ dq
         ++ title ++ dq ++ "," ++ dq ++ "color" ++ dq ++ ":" ++ dq ++ "gold"
         ++ dq ++ "}").

(** World management *)

Definition set_time (time : PyVal) : Method string :=
  _ensure_connected ;;;
  self <- get ;;
  c <- attr (client self) "time" ;;
  call_text c "time" [AStr "set"; AStr (py_str time)].

Definition add_time (time : Z) : Method string :=
  _ensure_connected ;;;
  self <- get ;;
  c <- attr (client self) "time" ;;
  call_text c "time" [AStr "add"; AStr (str_int time)].

Definition get_time : Method string :=
  _ensure_connected ;;;
  self <- get ;;
  c <- attr (client self) "time" ;;
  call_text c "time" [AStr "query"; AStr "gametime"].

Definition set_weather (weather : string) (duration : Z) : Method string :=
  _ensure_connected ;;;
  self <- get ;;
  c <- attr (client self) "weather" ;;
  call_text c "weather" [AStr weather; AInt duration].

Definition set_difficulty (difficulty : string) : Method string :=
  _ensure_connected ;;;
  self <- get ;;
  c <- attr (client self) "difficulty" ;;
  call_text c "difficulty" [AStr difficulty].

Definition set_gamemode (player gamemode : string) : Method string :=
  _ensure_connected ;;;
  self <- get ;;
  c <- attr (client self) "gamemode" ;;
  call_text c "gamemode" [AStr gamemode; AStr player].

Definition teleport_player (player : string) (x y z : Z) : Method string :=
  _ensure_connected ;;;
  self <- get ;;
  c <- attr (client self) "tp" ;;
  call_text c "tp" [AStr player; AFloat x; AFloat y; AFloat z].

Definition teleport_player_to_player (player target : string)
  : Method string :=
  _ensure_connected ;;;
  self <- get ;;
  c <- attr (client self) "tp" ;;
  call_text c "tp" [AStr player; AStr target].

Definition give_item (player item : string) (count : Z) : Method string :=
  _ensure_connected ;;;
  self <- get ;;
  c <- attr (client self) "give" ;;
  call_text c "give" [AStr player; AStr item; AInt count].

Definition clear_player_inventory
  (player : string) (item : option string) (count : option Z)
  : Method string :=
  _ensure_connected ;;;
  self <- get ;;
  c <- attr (client self) "clear" ;;
  if truthy_str item && truthy_int count then
    call_text c "clear" [AStr player; arg_str item; arg_int count]
  else if truthy_str item then
    call_text c "clear" [AStr player; arg_str item]
  else
    call_text c "clear" [AStr player].

(** Server information *)

Definition get_server_version : Method string :=
  _ensure_connected ;;; send_command "version".

Definition get_tps : Method string :=
  _ensure_connected ;;; send_command "tps".

Definition get_seed : Method string :=
  _ensure_connected ;;;
  self <- get ;;
  c <- attr (client self) "seed" ;;
  call_text c "seed" [].

(** Advanced features.  [str_lower] is Python's [str.lower]. *)

Definition execute_as_player (player command : string) : Method string :=
  _ensure_connected ;;;
  send_command ("execute as " ++ player ++ " run " ++ command).

Definition set_spawn_protection (radius : Z) : Method string :=
  _ensure_connected ;;;
  send_command ("gamerule spawnRadius " ++ str_int radius).

Definition set_gamerule (str_lower : string -> string)
  (rule : string) (value : PyVal) : Method string :=
  _ensure_connected ;;;
  send_command ("gamerule " ++ rule ++ " " ++ str_lower (py_str value)).

Definition get_gamerule (rule : string) : Method string :=
  _ensure_connected ;;;
  send_command ("gamerule " ++ rule).

(** *** Context managers and [repr] *)

(** [with self.connection(): body], the generator of the source run by
    [contextlib.contextmanager]. *)
Definition connection {A} (body : Method A) : Method A :=
  try_finally
    (self <- get ;;
     (if negb (_connected self) then connect ;;; ret tt else ret tt) ;;;
     body)
    disconnect.

Definition __enter__ : Method unit := connect ;;; ret tt.

Definition __exit__ : Method unit := disconnect.

(** [with self: body]: [__exit__] returns [None], so what [body] raises is
    raised again after it. *)
Definition with_ {A} (body : Method A) : Method A :=
  __enter__ ;;; try_finally body __exit__.

Definition __repr__ (self : RCONService) : string :=
  let status := if _connected self then "Connected" else "Disconnected" in
  "RCONService(" ++ server self ++ ":" ++ str_int (port self) ++ ", "
    ++ status ++ ")".

(** *** Two shapes of a convenience method *)

(** [m] is [send_command] applied to the text [command]. *)
Definition wraps_send_command (m : Method string) (command : string) : Prop :=
  forall lib st, m lib st = send_command command lib st.

(** [m] is the connection guard followed by one use of the client's method
    [name] with [args]: what the method returns or raises is returned or
    raised as it is, nothing is logged and the object is unchanged. *)
Definition delegates_to_client
  (m : Method string) (name : string) (args : list Arg) : Prop :=
  forall lib self w,
    m lib (self, w)
    = match client self, _connected self with
      | Some c, true =>
          (lib_text lib (List.length (trace w)),
           (self, mkWorld (trace w ++ [CallMethod c name args]) (log w)))
      | _, _ =>
          (Raise (RuntimeError "Not connected. Call connect() first."),
           (self, w))
      end.

(** The same for [list], whose reply [m] reads with [read]. *)
Definition delegates_to_list {A} (m : Method A) (read : Players -> A) : Prop :=
  forall lib self w,
    m lib (self, w)
    = match client self, _connected self with
      | Some c, true =>
          (match lib_players lib (List.length (trace w)) with
           | Ok r => Ok (read r)
           | Raise e => Raise e
           end,
           (self, mkWorld (trace w ++ [CallMethod c "list" []]) (log w)))
      | _, _ =>
          (Raise (RuntimeError "Not connected. Call connect() first."),
           (self, w))
      end.

(** The text [send_title] sends. *)
Definition title_command (player title subtitle : string) : string :=
  if String.eqb subtitle EmptyString then
    "title " ++ player ++ " title {" ++ dq ++ "text" ++ dq ++ ":" ++ dq
      ++ title ++ dq ++ "," ++ dq ++ "color" ++ dq ++ ":" ++ dq ++ "gold"
      ++ dq ++ "}"
  else
    "title " ++ player ++ " title {" ++ dq ++ "text" ++ dq ++ ":" ++ dq
      ++ title ++ dq ++ "," ++ dq ++ "color" ++ dq ++ ":" ++ dq ++ "gold"
      ++ dq ++ "} {" ++ dq ++ "text" ++ dq ++ ":" ++ dq ++ subtitle ++ dq
      ++ "," ++ dq ++ "color" ++ dq ++ ":" ++ dq ++ "yellow" ++ dq ++ "}".

(** The arguments [clear_player_inventory] hands to [clear]. *)
Definition clear_args (player : string) (item : option string)
  (count : option Z) : list Arg :=
  match item with
  | Some i =>
      if String.eqb i EmptyString then [AStr player]
      else match count with
           | Some n => if Z.eqb n 0 then [AStr player; AStr i]
                       else [AStr player; AStr i; AInt n]
           | None => [AStr player; AStr i]
           end
  | None => [AStr player]
  end.

(** Two states that differ at most in the password and in the arguments of
    earlier uses of the library. *)
Definition same_but_password (st1 st2 : RCONService * World) : Prop :=
  server (fst st1) = server (fst st2)
  /\ port (fst st1) = port (fst st2)
  /\ client (fst st1) = client (fst st2)
  /\ _connected (fst st1) = _connected (fst st2)
  /\ log (snd st1) = log (snd st2)
  /\ List.length (trace (snd st1)) = List.length (trace (snd st2)).

(** [m] leaves the credentials of the object as they are. *)
Definition keeps_credentials {A} (m : Method A) : Prop :=
  forall lib st,
    server (fst (snd (m lib st))) = server (fst st)
    /\ port (fst (snd (m lib st))) = port (fst st)
    /\ password (fst (snd (m lib st))) = password (fst st).

(** What [m] returns, logs and leaves in the object, the password apart,
    does not depend on the password. *)
Definition password_blind {A} (m : Method A) : Prop :=
  forall lib st1 st2,
    same_but_password st1 st2 ->
    fst (m lib st1) = fst (m lib st2)
    /\ same_but_password (snd (m lib st1)) (snd (m lib st2)).

(** *** Callers

    A caller such as the GUI uses the service one operation after the other
    and catches what an operation raises. *)

Inductive Request : Type :=
| Connect
| Disconnect
| SendCommand (command : string)
| GetPlayerList
| GetPlayerCount
| KickPlayer (player reason : string)
| BanPlayer (player reason : string)
| PardonPlayer (player : string)
| OpPlayer (player : string)
| DeopPlayer (player : string)
| WhitelistAdd (player : string)
| WhitelistRemove (player : string)
| WhitelistList
| WhitelistOn
| WhitelistOff
| WhitelistReload
| StopServer
| SaveAll (flush : bool)
| SaveOn
| SaveOff
| ReloadServer
| BroadcastMessage (message : string)
| TellPlayer (player message : string)
| SendTitle (player title subtitle : string)
| SetTime (time : PyVal)
| AddTime (time : Z)
| GetTime
| SetWeather (weather : string) (duration : Z)
| SetDifficulty (difficulty : string)
| SetGamemode (player gamemode : string)
| TeleportPlayer (player : string) (x y z : Z)
| TeleportPlayerToPlayer (player target : string)
| GiveItem (player item : string) (count : Z)
| ClearPlayerInventory (player : string) (item : option string)
    (count : option Z)
| GetServerVersion
| GetTps
| GetSeed
| ExecuteAsPlayer (player command : string)
| SetSpawnProtection (radius : Z)
| SetGamerule (rule : string) (value : PyVal)
| GetGamerule (rule : string).

(** What an operation returned. *)
Inductive Answer : Type :=
| RNone
| RBool (b : bool)
| RStr (s : string)
| RNames (names : list string)
| RCount (current maximum : Z).

Definition answer {A} (f : A -> Answer) (m : Method A) : Method Answer :=
  a <- m ;; ret (f a).

Definition perform (str_lower : string -> string) (r : Request)
  : Method Answer :=
  match r with
  | Connect => answer RBool connect
  | Disconnect => answer (fun _ => RNone) disconnect
  | SendCommand command => answer RStr (send_command command)
  | GetPlayerList => answer RNames get_player_list
  | GetPlayerCount => answer (fun p => RCount (fst p) (snd p)) get_player_count
  | KickPlayer player reason => answer RStr (kick_player player reason)
  | BanPlayer player reason => answer RStr (ban_player player reason)
  | PardonPlayer player => answer RStr (pardon_player player)
  | OpPlayer player => answer RStr (op_player player)
  | DeopPlayer player => answer RStr (deop_player player)
  | WhitelistAdd player => answer RStr (whitelist_add player)
  | WhitelistRemove player => answer RStr (whitelist_remove player)
  | WhitelistList => answer RStr whitelist_list
  | WhitelistOn => answer RStr whitelist_on
  | WhitelistOff => answer RStr whitelist_off
  | WhitelistReload => answer RStr whitelist_reload
  | StopServer => answer RStr stop_server
  | SaveAll flush => answer RStr (save_all flush)
  | SaveOn => answer RStr save_on
  | SaveOff => answer RStr save_off
  | ReloadServer => answer RStr reload_server
  | BroadcastMessage message => answer RStr (broadcast_message message)
  | TellPlayer player message => answer RStr (tell_player player message)
  | SendTitle player title subtitle =>
      answer RStr (send_title player title subtitle)
  | SetTime time => answer RStr (set_time time)
  | AddTime time => answer RStr (add_time time)
  | GetTime => answer RStr get_time
  | SetWeather weather duration => answer RStr (set_weather weather duration)
  | SetDifficulty difficulty => answer RStr (set_difficulty difficulty)
  | SetGamemode player gamemode => answer RStr (set_gamemode player gamemode)
  | TeleportPlayer player x y z => answer RStr (teleport_player player x y z)
  | TeleportPlayerToPlayer player target =>
      answer RStr (teleport_player_to_player player target)
  | GiveItem player item count => answer RStr (give_item player item count)
  | ClearPlayerInventory player item count =>
      answer RStr (clear_player_inventory player item count)
  | GetServerVersion => answer RStr get_server_version
  | GetTps => answer RStr get_tps
  | GetSeed => answer RStr get_seed
  | ExecuteAsPlayer player command =>
      answer RStr (execute_as_player player command)
  | SetSpawnProtection radius => answer RStr (set_spawn_protection radius)
  | SetGamerule rule value => answer RStr (set_gamerule str_lower rule value)
  | GetGamerule rule => answer RStr (get_gamerule rule)
  end.

(** The requests that are neither [connect] nor [disconnect] come in three
    shapes. *)
Inductive command_shape : Method Answer -> Prop :=
| shape_send (m : Method string) (command : string) :
    wraps_send_command m command -> command_shape (answer RStr m)
| shape_client (m : Method string) (name : string) (args : list Arg) :
    delegates_to_client m name args -> command_shape (answer RStr m)
| shape_list {A} (m : Method A) (read : Players -> A) (f : A -> Answer) :
    delegates_to_list m read -> command_shape (answer f m).

(** The client of a connected service exists, and every client was
    constructed by an earlier use of the library. *)
Definition well_formed (st : RCONService * World) : Prop :=
  match client (fst st) with
  | Some c => (c < List.length (trace (snd st)))%nat
  | None => _connected (fst st) = false
  end.

(** [m] leaves the object as it is, only adds to the trace and to the log,
    and raises the error of the guard on a service that is not connected. *)
Definition inert {A} (m : Method A) : Prop :=
  forall lib self w,
    fst (snd (m lib (self, w))) = self
    /\ (exists calls records,
           trace (snd (snd (m lib (self, w)))) = (trace w ++ calls)%list
           /\ log (snd (snd (m lib (self, w)))) = (log w ++ records)%list)
    /\ (is_connected self = false ->
        m lib (self, w)
        = (Raise (RuntimeError "Not connected. Call connect() first."),
           (self, w))).

(** The state after a caller's requests, each outcome caught. *)
Fixpoint after (str_lower : string -> string) (lib : Library)
  (rs : list Request) (st : RCONService * World) : RCONService * World :=
  match rs with
  | [] => st
  | r :: rs' => after str_lower lib rs' (snd (perform str_lower r lib st))
  end.

End rcon_service.

(** ** [src/rcon/RCONService.py], the minimal variant *)

Module rcon.

Record RCONService : Type := mkRCONService {
  server : string;
  port : Z;
  password : string;
  client : option Client
}.

Definition __init__ (server : string) (port : Z) (password : string)
  : RCONService :=
  mkRCONService server port password None.

Definition set_client (c : option Client) (self : RCONService) : RCONService :=
  mkRCONService (server self) (port self) (password self) c.

Definition Method (A : Type) : Type := M RCONService A.

Definition connect : Method unit :=
  self <- get ;;
  c <- new_Client (server self) (port self) ;;
  modify (set_client (Some c)) ;;;
  call_proc c "connect" [] ;;;
  call_proc c "login" [AStr (password self)].

Definition send_command (command : string) : Method string :=
  self <- get ;;
  match client self with
  | None => raise (RuntimeError "Not connected. Call connect() first.")
  | Some c => call_text c "run" [AStr command]
  end.

Definition get_player_list : Method (list string) :=
  self <- get ;;
  c <- attr (client self) "list" ;;
  r <- call_list c ;;
  ret (players r).

(** [m] leaves the credentials of the object and the log as they are. *)
Definition keeps_credentials_and_log {A} (m : Method A) : Prop :=
  forall lib st,
    server (fst (snd (m lib st))) = server (fst st)
    /\ port (fst (snd (m lib st))) = port (fst st)
    /\ password (fst (snd (m lib st))) = password (fst st)
    /\ log (snd (snd (m lib st))) = log (snd st).

End rcon.

(** ** [src/MainGUI.py]: the main window and the service

    The widgets are held by what they show: the text of a label, the
    content of a text box or an entry.  The message boxes shown are recorded
    in order.  What the user answers and what a dialog has produced are
    arguments of the methods.  The refresh thread is not part of the
    model. *)

Module MainGUI.

(** A call of [tkinter.messagebox]. *)
Inductive Dialog : Type :=
| showwarning (title message : string)
| showerror (title message : string)
| showinfo (title message : string)
| askyesno (title message : string).

Record MinecraftRCONGUI : Type := mkGUI {
  rcon_service : option rcon_service.RCONService;
  connected : bool;
  server_host : string;
  server_port : Z;
  server_password : string;
  auto_refresh : bool;
  connection_info : string;
  players_label : string;
  players_textbox : string;
  console_text : list string;
  command_entry : string;
  status_label : string;
  dialogs : list Dialog
}.

Definition set_rcon_service (v : option rcon_service.RCONService) (self : MinecraftRCONGUI)
  : MinecraftRCONGUI :=
  mkGUI v (connected self) (server_host self) (server_port self)
    (server_password self) (auto_refresh self) (connection_info self)
    (players_label self) (players_textbox self) (console_text self)
    (command_entry self) (status_label self) (dialogs self).

Definition set_connected (v : bool) (self : MinecraftRCONGUI)
  : MinecraftRCONGUI :=
  mkGUI (rcon_service self) v (server_host self) (server_port self)
    (server_password self) (auto_refresh self) (connection_info self)
    (players_label self) (players_textbox self) (console_text self)
    (command_entry self) (status_label self) (dialogs self).

Definition set_server_host (v : string) (self : MinecraftRCONGUI)
  : MinecraftRCONGUI :=
  mkGUI (rcon_service self) (connected self) v (server_port self)
    (server_password self) (auto_refresh self) (connection_info self)
    (players_label self) (players_textbox self) (console_text self)
    (command_entry self) (status_label self) (dialogs self).

Definition set_server_port (v : Z) (self : MinecraftRCONGUI)
  : MinecraftRCONGUI :=
  mkGUI (rcon_service self) (connected self) (server_host self) v
    (server_password self) (auto_refresh self) (connection_info self)
    (players_label self) (players_textbox self) (console_text self)
    (command_entry self) (status_label self) (dialogs self).

Definition set_server_password (v : string) (self : MinecraftRCONGUI)
  : MinecraftRCONGUI :=
  mkGUI (rcon_service self) (connected self) (server_host self)
    (server_port self) v (auto_refresh self) (connection_info self)
    (players_label self) (players_textbox self) (console_text self)
    (command_entry self) (status_label self) (dialogs self).

Definition set_auto_refresh (v : bool) (self : MinecraftRCONGUI)
  : MinecraftRCONGUI :=
  mkGUI (rcon_service self) (connected self) (server_host self)
    (server_port self) (server_password self) v (connection_info self)
    (players_label self) (players_textbox self) (console_text self)
    (command_entry self) (status_label self) (dialogs self).

Definition set_connection_info (v : string) (self : MinecraftRCONGUI)
  : MinecraftRCONGUI :=
  mkGUI (rcon_service self) (connected self) (server_host self)
    (server_port self) (server_password self) (auto_refresh self) v
    (players_label self) (players_textbox self) (console_text self)
    (command_entry self) (status_label self) (dialogs self).

Definition set_players_label (v : string) (self : MinecraftRCONGUI)
  : MinecraftRCONGUI :=
  mkGUI (rcon_service self) (connected self) (server_host self)
    (server_port self) (server_password self) (auto_refresh self)
    (connection_info self) v (players_textbox self) (console_text self)
    (command_entry self) (status_label self) (dialogs self).

Definition set_players_textbox (v : string) (self : MinecraftRCONGUI)
  : MinecraftRCONGUI :=
  mkGUI (rcon_service self) (connected self) (server_host self)
    (server_port self) (server_password self) (auto_refresh self)
    (connection_info self) (players_label self) v (console_text self)
    (command_entry self) (status_label self) (dialogs self).

Definition set_console_text (v : list string) (self : MinecraftRCONGUI)
  : MinecraftRCONGUI :=
  mkGUI (rcon_service self) (connected self) (server_host self)
    (server_port self) (server_password self) (auto_refresh self)
    (connection_info self) (players_label self) (players_textbox self) v
    (command_entry self) (status_label self) (dialogs self).

Definition set_command_entry (v : string) (self : MinecraftRCONGUI)
  : MinecraftRCONGUI :=
  mkGUI (rcon_service self) (connected self) (server_host self)
    (server_port self) (server_password self) (auto_refresh self)
    (connection_info self) (players_label self) (players_textbox self)
    (console_text self) v (status_label self) (dialogs self).

Definition set_status_label (v : string) (self : MinecraftRCONGUI)
  : MinecraftRCONGUI :=
  mkGUI (rcon_service self) (connected self) (server_host self)
    (server_port self) (server_password self) (auto_refresh self)
    (connection_info self) (players_label self) (players_textbox self)
    (console_text self) (command_entry self) v (dialogs self).

Definition set_dialogs (v : list Dialog) (self : MinecraftRCONGUI)
  : MinecraftRCONGUI :=
  mkGUI (rcon_service self) (connected self) (server_host self)
    (server_port self) (server_password self) (auto_refresh self)
    (connection_info self) (players_label self) (players_textbox self)
    (console_text self) (command_entry self) (status_label self) v.

Definition Method (A : Type) : Type := M MinecraftRCONGUI A.

(** The line feed. *)
Definition nl : string := String "010"%char EmptyString.

(** The state [__init__] sets, before the widgets are filled. *)
Definition __init__ : MinecraftRCONGUI :=
  mkGUI None false "127.0.0.1" 25575 EmptyString true
    "Not Connected" "Players Online: 0/0" EmptyString [] EmptyString
    "Ready" [].

(** [pat in s] for two texts. *)
Fixpoint contains (pat s : string) : bool :=
  (String.prefix pat s
   || match s with
      | EmptyString => false
      | String _ s' => contains pat s'
      end)%bool.

(** [self.rcon_service.name(...)]: the method [m] of the service object the
    window holds, which it changes in place. *)
Definition on_service {A} (name : string) (m : rcon_service.Method A)
  : Method A :=
  fun lib st =>
    match rcon_service (fst st) with
    | None =>
        (Raise (AttributeError
                  ("'NoneType' object has no attribute '" ++ name ++ "'")),
         st)
    | Some service =>
        match m lib (service, snd st) with
        | (r, (service', w')) =>
            (r, (set_rcon_service (Some service') (fst st), w'))
        end
    end.

Definition messagebox (d : Dialog) : Method unit :=
  modify (fun self => set_dialogs (dialogs self ++ [d]) self).

Definition not_connected_warning : Method unit :=
  messagebox (showwarning "Not Connected" "Please connect to a server first.").

Section Runtime.

(** [time.strftime("%H:%M:%S")] at the n-th write to the console, and
    Python's [str.strip] and [str.lower]. *)
Variable strftime : nat -> string.
Variable str_strip : string -> string.
Variable str_lower : string -> string.

Definition log_to_console (message : string) : Method unit :=
  self <- get ;;
  let timestamp := strftime (List.length (console_text self)) in
  let formatted_message := "[" ++ timestamp ++ "] " ++ message ++ nl in
  modify (fun self => set_console_text
                        (console_text self ++ [formatted_message]) self).

Definition update_status (status : string) : Method unit :=
  modify (set_status_label status).

Definition refresh_player_list : Method unit :=
  self <- get ;;
  if negb (connected self) then ret tt
  else
    try_except
      (players <- on_service "get_player_list" rcon_service.get_player_list ;;
       counts <- on_service "get_player_count" rcon_service.get_player_count ;;
       let current_count := fst counts in
       let max_count := snd counts in
       modify (set_players_label
                 ("Players Online: " ++ str_int current_count ++ "/"
                    ++ str_int max_count)) ;;;
       modify (set_players_textbox EmptyString) ;;;
       match players with
       | [] => modify (set_players_textbox "No players online")
       | _ :: _ =>
           modify (set_players_textbox
                     (fold_left (fun text player => text ++ player ++ nl)
                        players EmptyString))
       end)
      (fun e => logger ERROR ("Failed to refresh player list: " ++ exn_str e)).

Definition disconnect_server : Method unit :=
  self <- get ;;
  match rcon_service self with
  | Some _ =>
      try_except (on_service "disconnect" rcon_service.disconnect)
        (fun _ => ret tt)
  | None => ret tt
  end ;;;
  modify (set_connected false) ;;;
  modify (set_rcon_service None) ;;;
  modify (set_connection_info "Not Connected") ;;;
  modify (set_players_label "Players Online: 0/0") ;;;
  modify (set_players_textbox EmptyString) ;;;
  log_to_console "Disconnected from server" ;;;
  update_status "Disconnected".

Definition connect_to_server : Method unit :=
  self <- get ;;
  (if connected self then disconnect_server else ret tt) ;;;
  try_except
    (self <- get ;;
     modify (set_rcon_service
               (Some (rcon_service.__init__ (server_host self)
                        (server_port self) (server_password self)))) ;;;
     on_service "connect" rcon_service.connect ;;;
     modify (set_connected true) ;;;
     let connection_text :=
       server_host self ++ " on port " ++ str_int (server_port self) in
     modify (set_connection_info connection_text) ;;;
     log_to_console ("Connected to " ++ connection_text) ;;;
     update_status "Connected" ;;;
     refresh_player_list)
    (fun e =>
       log_to_console ("Failed to connect: " ++ exn_str e) ;;;
       update_status "Connection failed" ;;;
       messagebox (showerror "Connection Error"
                     ("Failed to connect to server:" ++ nl ++ exn_str e))).

(** [result] is [dialog.result] when the method reads it. *)
Definition show_connection_dialog (result : option (string * Z * string))
  : Method unit :=
  match result with
  | Some (host, port, password) =>
      modify (set_server_host host) ;;;
      modify (set_server_port port) ;;;
      modify (set_server_password password) ;;;
      connect_to_server
  | None => ret tt
  end.

Definition affects_players (command : string) : bool :=
  existsb (fun cmd => contains cmd (str_lower command))
    ["kick"; "ban"; "whitelist"; "op"; "deop"].

Definition execute_command : Method unit :=
  self <- get ;;
  let command := str_strip (command_entry self) in
  if String.eqb command EmptyString then ret tt
  else if negb (connected self) then not_connected_warning
  else
    try_except
      (response <- on_service "send_command"
                     (rcon_service.send_command command) ;;
       log_to_console ("> " ++ command) ;;;
       log_to_console ("< " ++ response) ;;;
       modify (set_command_entry EmptyString) ;;;
       if affects_players command then refresh_player_list else ret tt)
      (fun e => log_to_console ("Command failed: " ++ exn_str e)).

Definition execute_quick_command (command : string) : Method unit :=
  self <- get ;;
  if negb (connected self) then not_connected_warning
  else
    try_except
      (response <- on_service "send_command"
                     (rcon_service.send_command command) ;;
       log_to_console ("> " ++ command) ;;;
       log_to_console ("< " ++ response))
      (fun e => log_to_console ("Command failed: " ++ exn_str e)).

Definition save_all : Method unit :=
  self <- get ;;
  if negb (connected self) then not_connected_warning
  else
    try_except
      (response <- on_service "save_all" (rcon_service.save_all true) ;;
       log_to_console "> save-all" ;;;
       log_to_console ("< " ++ response))
      (fun e => log_to_console ("Save failed: " ++ exn_str e)).

Definition reload_server : Method unit :=
  self <- get ;;
  if negb (connected self) then not_connected_warning
  else
    try_except
      (response <- on_service "reload_server" rcon_service.reload_server ;;
       log_to_console "> reload" ;;;
       log_to_console ("< " ++ response))
      (fun e => log_to_console ("Reload failed: " ++ exn_str e)).

Definition get_seed : Method unit :=
  self <- get ;;
  if negb (connected self) then not_connected_warning
  else
    try_except
      (response <- on_service "get_seed" rcon_service.get_seed ;;
       log_to_console "> seed" ;;;
       log_to_console ("< " ++ response))
      (fun e => log_to_console ("Seed command failed: " ++ exn_str e)).

(** [yes] is what the user answers to the question. *)
Definition stop_server_confirm (yes : bool) : Method unit :=
  self <- get ;;
  if negb (connected self) then not_connected_warning
  else
    messagebox (askyesno "Confirm"
                  "Are you sure you want to stop the server?") ;;;
    if yes then
      try_except
        (response <- on_service "stop_server" rcon_service.stop_server ;;
         log_to_console "> stop" ;;;
         log_to_console ("< " ++ response) ;;;
         disconnect_server)
        (fun e => log_to_console ("Stop command failed: " ++ exn_str e))
    else ret tt.

(** [message] is what [simpledialog.askstring] returns. *)
Definition broadcast_message_dialog (message : option string) : Method unit :=
  self <- get ;;
  if negb (connected self) then not_connected_warning
  else
    if truthy_str message then
      let text := match message with Some t => t | None => EmptyString end in
      try_except
        (response <- on_service "broadcast_message"
                       (rcon_service.broadcast_message text) ;;
         log_to_console ("Broadcast: " ++ text) ;;;
         log_to_console ("< " ++ response))
        (fun e => log_to_console ("Broadcast failed: " ++ exn_str e))
    else ret tt.

(** [result] is [dialog.result] when the method reads it.  The list of
    players is fetched outside any [try]. *)
Definition kick_player_dialog (result : option (string * string))
  : Method unit :=
  self <- get ;;
  if negb (connected self) then not_connected_warning
  else
    players <- on_service "get_player_list" rcon_service.get_player_list ;;
    match players with
    | [] =>
        messagebox (showinfo "No Players" "No players are currently online.")
    | _ :: _ =>
        match result with
        | Some (player, reason) =>
            try_except
              (response <- on_service "kick_player"
                             (rcon_service.kick_player player reason) ;;
               log_to_console ("Kicked " ++ player ++ ": " ++ reason) ;;;
               log_to_console ("< " ++ response) ;;;
               refresh_player_list)
              (fun e => log_to_console ("Kick failed: " ++ exn_str e))
        | None => ret tt
        end
    end.

Definition ban_player_dialog (result : option (string * string))
  : Method unit :=
  self <- get ;;
  if negb (connected self) then not_connected_warning
  else
    players <- on_service "get_player_list" rcon_service.get_player_list ;;
    match players with
    | [] =>
        messagebox (showinfo "No Players" "No players are currently online.")
    | _ :: _ =>
        match result with
        | Some (player, reason) =>
            try_except
              (response <- on_service "ban_player"
                             (rcon_service.ban_player player reason) ;;
               log_to_console ("Banned " ++ player ++ ": " ++ reason) ;;;
               log_to_console ("< " ++ response) ;;;
               refresh_player_list)
              (fun e => log_to_console ("Ban failed: " ++ exn_str e))
        | None => ret tt
        end
    end.

Definition message_player_dialog (result : option (string * string))
  : Method unit :=
  self <- get ;;
  if negb (connected self) then not_connected_warning
  else
    players <- on_service "get_player_list" rcon_service.get_player_list ;;
    match players with
    | [] =>
        messagebox (showinfo "No Players" "No players are currently online.")
    | _ :: _ =>
        match result with
        | Some (player, message) =>
            try_except
              (response <- on_service "tell_player"
                             (rcon_service.tell_player player message) ;;
               log_to_console ("Message to " ++ player ++ ": " ++ message) ;;;
               log_to_console ("< " ++ response))
              (fun e => log_to_console ("Message failed: " ++ exn_str e))
        | None => ret tt
        end
    end.

Definition toggle_auto_refresh (auto_refresh_var : bool) : Method unit :=
  modify (set_auto_refresh auto_refresh_var).

(** [on_closing], up to the destruction of the window. *)
Definition on_closing : Method unit :=
  self <- get ;;
  if connected self then disconnect_server else ret tt.

(** What the user does with the window. *)
Inductive Action : Type :=
| ShowConnectionDialog (result : option (string * Z * string))
| ConnectToServer
| DisconnectServer
| TypeCommand (text : string)
| ExecuteCommand
| ExecuteQuickCommand (command : string)
| SaveAll
| ReloadServer
| GetSeed
| StopServerConfirm (yes : bool)
| RefreshPlayerList
| BroadcastMessageDialog (message : option string)
| KickPlayerDialog (result : option (string * string))
| BanPlayerDialog (result : option (string * string))
| MessagePlayerDialog (result : option (string * string))
| ToggleAutoRefresh (auto_refresh_var : bool)
| OnClosing.

Definition handle (a : Action) : Method unit :=
  match a with
  | ShowConnectionDialog result => show_connection_dialog result
  | ConnectToServer => connect_to_server
  | DisconnectServer => disconnect_server
  | TypeCommand text => modify (set_command_entry text)
  | ExecuteCommand => execute_command
  | ExecuteQuickCommand command => execute_quick_command command
  | SaveAll => save_all
  | ReloadServer => reload_server
  | GetSeed => get_seed
  | StopServerConfirm yes => stop_server_confirm yes
  | RefreshPlayerList => refresh_player_list
  | BroadcastMessageDialog message => broadcast_message_dialog message
  | KickPlayerDialog result => kick_player_dialog result
  | BanPlayerDialog result => ban_player_dialog result
  | MessagePlayerDialog result => message_player_dialog result
  | ToggleAutoRefresh v => toggle_auto_refresh v
  | OnClosing => on_closing
  end.

(** The state after the user's actions; what a handler raises is caught by
    the event loop. *)
Fixpoint after (lib : Library) (actions : list Action)
  (st : MinecraftRCONGUI * World) : MinecraftRCONGUI * World :=
  match actions with
  | [] => st
  | a :: actions' => after lib actions' (snd (handle a lib st))
  end.

End Runtime.

(** [m] leaves the service the window holds and the flag [connected] as
    they are, and only adds to the trace. *)
Definition quiet {A} (m : Method A) : Prop :=
  forall lib st,
    rcon_service (fst (snd (m lib st))) = rcon_service (fst st)
    /\ connected (fst (snd (m lib st))) = connected (fst st)
    /\ exists calls,
        trace (snd (snd (m lib st))) = (trace (snd st) ++ calls)%list.

(** From a state in [P], [m] ends with an outcome and a state in [Q]. *)
Definition hoare {A} (P : MinecraftRCONGUI * World -> Prop) (m : Method A)
  (Q : Result A -> MinecraftRCONGUI * World -> Prop) : Prop :=
  forall lib st, P st -> Q (fst (m lib st)) (snd (m lib st)).

(** [m] returns, whatever the library does. *)
Definition never_raises {A} (m : Method A) : Prop :=
  forall lib st, is_ok (fst (m lib st)) = true.

(** The window is consistent with its service: when it says connected, it
    holds a service whose guard passes. *)
Definition consistent (st : MinecraftRCONGUI * World) : Prop :=
  match rcon_service (fst st) with
  | Some service =>
      rcon_service.well_formed (service, snd st)
      /\ (connected (fst st) = true
          -> rcon_service.is_connected service = true)
  | None => connected (fst st) = false
  end.

End MainGUI.

(** ** [src/MainGUI.py]: the dialogs

    A dialog is held by the content of its entries, its result, the message
    boxes it has shown and whether its window was destroyed. *)

Module Dialogs.

Record ConnectionDialog : Type := mkConnectionDialog {
  host_entry : string;
  port_entry : string;
  password_entry : string;
  connection_result : option (string * Z * string);
  connection_shown : list MainGUI.Dialog;
  connection_destroyed : bool
}.

Record PlayerActionDialog : Type := mkPlayerActionDialog {
  player_var : string;
  reason_entry : string;
  action_result : option (string * string);
  action_shown : list MainGUI.Dialog;
  action_destroyed : bool
}.

Record PlayerMessageDialog : Type := mkPlayerMessageDialog {
  message_player_var : string;
  message_entry : string;
  message_result : option (string * string);
  message_shown : list MainGUI.Dialog;
  message_destroyed : bool
}.

Section Runtime.

(** Python's [str.strip], and [int] on a text: [None] is [ValueError]. *)
Variable str_strip : string -> string.
Variable py_int : string -> option Z.

Definition ConnectionDialog_init (host : string) (port : Z)
  (password : string) : ConnectionDialog :=
  mkConnectionDialog host (str_int port) password None [] false.


Definition PlayerActionDialog_init (title : string) (players : list string)
  : PlayerActionDialog :=
  mkPlayerActionDialog
    match players with
    | p :: _ => p
    | [] => EmptyString
    end
    (if MainGUI.contains "Kick" title then "Kicked by admin"
     else "Banned by admin")
    None [] false.


Definition PlayerMessageDialog_init (players : list string)
  : PlayerMessageDialog :=
  mkPlayerMessageDialog
    match players with
    | p :: _ => p
    | [] => EmptyString
    end
    EmptyString None [] false.


End Runtime.

End Dialogs.

(** ** The frame codec of the specification *)

Module FrameCodec.

Abbreviation byte := Byte.byte.
Abbreviation x00 := Byte.x00.

Definition byte_of_Z (z : Z) : byte :=
  match Byte.of_N (Z.to_N (z mod 256)) with
  | Some b => b
  | None => x00
  end.

Definition Z_of_byte (b : byte) : Z := Z.of_N (Byte.to_N b).

(** A 32-bit integer, signed, least significant byte first. *)
Definition le32 (x : Z) : list byte :=
  [byte_of_Z x; byte_of_Z (Z.shiftr x 8); byte_of_Z (Z.shiftr x 16);
   byte_of_Z (Z.shiftr x 24)].

Definition int32_of_le (b0 b1 b2 b3 : byte) : Z :=
  let u := Z_of_byte b0 + 2 ^ 8 * Z_of_byte b1 + 2 ^ 16 * Z_of_byte b2
           + 2 ^ 24 * Z_of_byte b3 in
  if u <? 2 ^ 31 then u else u - 2 ^ 32.

Definition is_int32 (x : Z) : Prop := - 2 ^ 31 <= x < 2 ^ 31.

(** Modelled from the spec: the packet of section 3.  The repository has no
    packet type; it leaves the wire format to the [mcipc] library.  The
    packet type is held as the 32-bit code that is written in the header;
    the four names of the enumeration stand for the codes of section 6 and
    of the protocol it refers to, where a command and the reply to a login
    share the code 2.  The [length] field and the padding byte are computed
    by the codec. *)
Record Packet : Type := mkPacket {
  requestId : Z;
  packetType : Z;
  payload : list byte
}.

Definition Auth : Z := 3.
Definition AuthResponse : Z := 2.
Definition Command : Z := 2.
Definition CommandResponse : Z := 0.

(** Modelled from the spec: the protocol maximum of a payload, section 3. *)
Definition max_payload : Z := 4096.

(** Modelled from the spec: [encode] of section 4.1, which the repository
    does not have.  The length prefix counts the request id, the type, the
    payload and the two null bytes that end the frame.  [None] is the
    [EncodingError] of a payload over the maximum. *)
Definition encode (requestId packetType : Z) (payload : list byte)
  : option (list byte) :=
  let n := Z.of_nat (List.length payload) in
  if max_payload <? n then None
  else Some (le32 (n + 10) ++ le32 requestId ++ le32 packetType
               ++ payload ++ [x00; x00])%list.

Inductive Decoded : Type :=
| Frame (p : Packet) (consumed : nat)
| Incomplete
| CorruptFrame.

(** Modelled from the spec: [tryDecode] of section 4.1, which the repository
    does not have.  It reads the length prefix, answers [Incomplete] while
    fewer than [length + 4] bytes are buffered, [CorruptFrame] when the two
    last bytes of the frame are not both zero, and otherwise the packet with
    the number of bytes it took.  A length too small to hold the header and
    the two null bytes, which the spec does not mention, is a
    [CorruptFrame]. *)
Definition tryDecode (buffer : list byte) : Decoded :=
  match buffer with
  | l0 :: l1 :: l2 :: l3 :: body =>
      let length := int32_of_le l0 l1 l2 l3 in
      if Z.of_nat (List.length body) <? length then Incomplete
      else if length <? 10 then CorruptFrame
      else
        match firstn (Z.to_nat length) body with
        | i0 :: i1 :: i2 :: i3 :: t0 :: t1 :: t2 :: t3 :: rest =>
            let n := (Z.to_nat length - 10)%nat in
            match skipn n rest with
            | [z0; z1] =>
                if (Byte.eqb z0 x00 && Byte.eqb z1 x00)%bool then
                  Frame (mkPacket (int32_of_le i0 i1 i2 i3)
                           (int32_of_le t0 t1 t2 t3) (firstn n rest))
                    (4 + Z.to_nat length)
                else CorruptFrame
            | _ => CorruptFrame
            end
        | _ => CorruptFrame
        end
  | _ => Incomplete
  end.

End FrameCodec.

(** ** Environments to run the services in *)

(** ASCII letters to lower case, as [str.lower] does on ASCII text. *)
Definition ascii_lower (a : ascii) : ascii :=
  let n := nat_of_ascii a in
  if (Nat.leb 65 n && Nat.leb n 90)%bool then ascii_of_nat (n + 32) else a.

Fixpoint lower_ascii (s : string) : string :=
  match s with
  | EmptyString => EmptyString
  | String a s' => String (ascii_lower a) (lower_ascii s')
  end.

(** A server that accepts everything. *)
Definition lib_ok : Library :=
  mkLibrary (fun _ => Ok tt) (fun _ => Ok tt) (fun _ => Ok "done")
    (fun _ => Ok (mkPlayers ["Steve"; "Alex"] 20)).

(** A server that rejects the password: the third use, [login], raises. *)
Definition lib_wrong_password : Library :=
  mkLibrary (fun _ => Ok tt)
    (fun n => if Nat.eqb n 2 then Raise (mkExn "WrongPassword" "wrong password")
              else Ok tt)
    (fun _ => Ok "done")
    (fun _ => Ok (mkPlayers [] 20)).

(** A client whose [close] raises at the fourth use and works afterwards. *)
Definition lib_close_raises : Library :=
  mkLibrary (fun _ => Ok tt)
    (fun n => if Nat.eqb n 3 then Raise (mkExn "OSError" "Bad file descriptor")
              else Ok tt)
    (fun _ => Ok "done")
    (fun _ => Ok (mkPlayers [] 20)).

Definition fresh : rcon_service.RCONService * World :=
  (rcon_service.__init__ "127.0.0.1" 25575 "Hatsune_Miku", world0).

(** A clock that stands still, a [strip] for ASCII spaces and an [int]
    for decimal numerals, to run the window and the dialogs. *)
Definition clock (n : nat) : string := "12:00:00".

Fixpoint lstrip_spaces (s : string) : string :=
  match s with
  | String a s' => if Ascii.eqb a " " then lstrip_spaces s' else s
  | EmptyString => EmptyString
  end.

Fixpoint rstrip_spaces (s : string) : string :=
  match s with
  | String a s' =>
      let t := rstrip_spaces s' in
      if (Ascii.eqb a " " && String.eqb t EmptyString)%bool then EmptyString
      else String a t
  | EmptyString => EmptyString
  end.

Definition strip_spaces (s : string) : string :=
  rstrip_spaces (lstrip_spaces s).


(** The window after a connection dialog that gave a result. *)
Definition window_connected : MainGUI.MinecraftRCONGUI * World :=
  MainGUI.after clock strip_spaces lower_ascii lib_ok
    [MainGUI.ShowConnectionDialog (Some ("127.0.0.1", 25575, "Hatsune_Miku"))]
    (MainGUI.__init__, world0).

(** The same on a server without players. *)
Definition window_on_empty_server : MainGUI.MinecraftRCONGUI * World :=
  MainGUI.after clock strip_spaces lower_ascii lib_close_raises
    [MainGUI.ShowConnectionDialog (Some ("127.0.0.1", 25575, "Hatsune_Miku"))]
    (MainGUI.__init__, world0).

(** The connected window with a command typed into the entry. *)
Definition window_typed : MainGUI.MinecraftRCONGUI * World :=
  MainGUI.after clock strip_spaces lower_ascii lib_ok
    [MainGUI.TypeCommand "  tps "] window_connected.

(** The service of these windows. *)
Definition service_connected : rcon_service.RCONService :=
  rcon_service.mkRCONService "127.0.0.1" 25575 "Hatsune_Miku" (Some 0%nat)
    true.

Definition fresh_minimal : rcon.RCONService * World :=
  (rcon.__init__ "127.0.0.1" 25575 "Hatsune_Miku", world0).

(** The service after a [connect] that returned. *)
Definition connected : rcon_service.RCONService * World :=
  snd (rcon_service.connect lib_ok fresh).

(** The same, with the client whose first [close] raises. *)
Definition connected_close_raises : rcon_service.RCONService * World :=
  snd (rcon_service.connect lib_close_raises fresh).

(** * Properties *)

Arguments String.append : simpl never.
Arguments str_int : simpl never.

(** Unfolds the plumbing of a method down to matches on the library's
    replies, and splits on the replies, the first use first. *)
Ltac unfold_method :=
  cbv beta delta [bind try_except get modify ret raise logger use_lib
                  new_Client call_proc call_text call_list attr];
  simpl.

Ltac split_reply :=
  match goal with
  | |- context [lib_new ?l ?n] =>
      lazymatch goal with
      | |- context [match lib_new l n with _ => _ end] =>
          destruct (lib_new l n) as [[]|?] eqn:?
      end
  | |- context [lib_proc ?l ?n] =>
      lazymatch goal with
      | |- context [match lib_proc l n with _ => _ end] =>
          destruct (lib_proc l n) as [[]|?] eqn:?
      end
  | |- context [lib_text ?l ?n] =>
      lazymatch goal with
      | |- context [match lib_text l n with _ => _ end] =>
          destruct (lib_text l n) eqn:?
      end
  | |- context [lib_players ?l ?n] =>
      lazymatch goal with
      | |- context [match lib_players l n with _ => _ end] =>
          destruct (lib_players l n) eqn:?
      end
  end; simpl.

Ltac split_replies := repeat split_reply.

Ltac trace_length :=
  rewrite ?length_app; simpl List.length; rewrite ?Nat.add_1_r.

Ltac trace_length_in_all :=
  rewrite ?length_app in *; simpl List.length in *;
  rewrite ?Nat.add_1_r in *.

(** Splits on the replies of two runs whose traces have the same length. *)
Ltac split_replies_of_both Hlen :=
  trace_length; rewrite ?Hlen;
  repeat (split_reply; trace_length; rewrite ?Hlen).

Section FullService.

Import rcon_service.

Variable lib : Library.

Lemma ensure_connected_not_connected (self : RCONService) (w : World) :
  is_connected self = false ->
  _ensure_connected lib (self, w)
  = (Raise (RuntimeError "Not connected. Call connect() first."), (self, w)).
Proof.
  destruct self as [srv prt pw [c|] [|]]; cbv [is_connected _connected client];
    simpl; try discriminate; intros _; reflexivity.
Qed.

Lemma ensure_connected_connected (self : RCONService) (w : World) :
  is_connected self = true ->
  _ensure_connected lib (self, w) = (Ok tt, (self, w)).
Proof.
  destruct self as [srv prt pw [c|] [|]]; cbv [is_connected _connected client];
    simpl; try discriminate; intros _; reflexivity.
Qed.

Lemma disconnect_returns (st : RCONService * World) :
  fst (disconnect lib st) = Ok tt.
Proof.
  destruct st as [[srv prt pw [c|] [|]] w]; unfold disconnect; unfold_method;
    try reflexivity.
  split_replies; reflexivity.
Qed.

(** C2: [connect] either returns [True] and leaves the service connected, or
    raises a [ConnectionError] whose text ends with the text of the exception
    the library raised, and leaves the service not connected. *)
Theorem C2_connect_succeeds_or_ConnectionError
  (self : RCONService) (w : World) :
  let n := List.length (trace w) in
  let r := connect lib (self, w) in
  (lib_new lib n = Ok tt /\ lib_proc lib (S n) = Ok tt
   /\ lib_proc lib (S (S n)) = Ok tt
   /\ fst r = Ok true /\ is_connected (fst (snd r)) = true)
  \/
  (exists e,
      (lib_new lib n = Raise e
       \/ (lib_new lib n = Ok tt /\ lib_proc lib (S n) = Raise e)
       \/ (lib_new lib n = Ok tt /\ lib_proc lib (S n) = Ok tt
           /\ lib_proc lib (S (S n)) = Raise e))
      /\ fst r
         = Raise (ConnectionError
                    ("Failed to connect to RCON server: " ++ exn_str e))
      /\ is_connected (fst (snd r)) = false).
Proof.
  destruct self as [srv prt pw c b], w as [tr lg].
  intros n r; subst n r; unfold connect, is_connected; unfold_method.
  trace_length.
  split_replies; trace_length_in_all;
    first [ left; repeat split; (reflexivity || assumption)
          | match goal with
            | e : Exn |- _ => right; exists e; intuition congruence
            end ].
Qed.

Lemma connect_is_connected (st : RCONService * World) :
  is_connected (fst (snd (connect lib st))) = is_ok (fst (connect lib st)).
Proof.
  destruct st as [[srv prt pw c b] [tr lg]].
  unfold connect, is_connected; unfold_method.
  split_replies; reflexivity.
Qed.

Lemma send_command_not_connected
  (command : string) (self : RCONService) (w : World) :
  is_connected self = false ->
  send_command command lib (self, w)
  = (Raise (RuntimeError "Not connected. Call connect() first."), (self, w)).
Proof.
  intros H. unfold send_command, bind at 1.
  rewrite (ensure_connected_not_connected self w H). reflexivity.
Qed.

(** C1, as the code has it: [send_command] on a service that is not connected raises
    [RuntimeError] and uses neither the library nor the logger; so it does
    after a failed [connect]; and so does the minimal variant as long as
    [connect] was never called. *)
Theorem C1_send_command_not_connected_RuntimeError (command : string) :
  (forall self w,
      is_connected self = false ->
      send_command command lib (self, w)
      = (Raise (RuntimeError "Not connected. Call connect() first."),
         (self, w)))
  /\
  (forall st,
      is_ok (fst (connect lib st)) = false ->
      send_command command lib (snd (connect lib st))
      = (Raise (RuntimeError "Not connected. Call connect() first."),
         snd (connect lib st)))
  /\
  (forall self w,
      rcon.client self = None ->
      rcon.send_command command lib (self, w)
      = (Raise (RuntimeError "Not connected. Call connect() first."),
         (self, w))).
Proof.
  split; [| split].
  - intros self w H. now apply send_command_not_connected.
  - intros st H.
    pose proof (connect_is_connected st) as Hc. rewrite H in Hc.
    destruct (snd (connect lib st)) as [self' w'] eqn:E.
    now apply send_command_not_connected.
  - intros [srv prt pw c] w H. simpl in H. subst c. reflexivity.
Qed.

(** C3, as the code has it: [disconnect] never raises; on a service that is not
    connected it changes nothing; and a second [disconnect] changes nothing
    more and returns the same, provided the service was not connected or the
    library's [close] returned in the first one. *)
Theorem C3_disconnect_idempotent_when_close_returns
  (self : RCONService) (w : World) :
  fst (disconnect lib (self, w)) = Ok tt
  /\
  (is_connected self = false -> disconnect lib (self, w) = (Ok tt, (self, w)))
  /\
  (is_connected self = false
   \/ lib_proc lib (List.length (trace w)) = Ok tt ->
   disconnect lib (snd (disconnect lib (self, w)))
   = (Ok tt, snd (disconnect lib (self, w)))).
Proof.
  split; [apply disconnect_returns|].
  destruct self as [srv prt pw [c|] [|]], w as [tr lg];
    unfold disconnect, is_connected; unfold_method;
    try (split; intros; reflexivity).
  split; [discriminate|].
  intros [H|H]; [discriminate|]. rewrite H. reflexivity.
Qed.

(** C4: on a connected service [send_command] hands the command, unchanged,
    to the client's [run], once, and returns the text [run] returned,
    unchanged, or raises what [run] raised; besides that it writes one log
    record.  The minimal variant does the same without logging. *)
Theorem C4_send_command_delegates_to_run
  (command : string) (self : RCONService) (w : World) :
  is_connected self = true ->
  exists c,
    client self = Some c /\
    let reply := lib_text lib (List.length (trace w)) in
    let trace' := (trace w ++ [CallMethod c "run" [AStr command]])%list in
    send_command command lib (self, w)
    = (reply,
       (self,
        mkWorld trace'
          (log w ++
             [match reply with
              | Ok response =>
                  mkLog DEBUG
                    ("Command: " ++ command ++ " | Response: " ++ response)
              | Raise e =>
                  mkLog ERROR ("Command execution failed: " ++ exn_str e)
              end]))) /\
    forall (self0 : rcon.RCONService),
      rcon.client self0 = Some c ->
      rcon.send_command command lib (self0, w)
      = (reply, (self0, mkWorld trace' (log w))).
Proof.
  destruct self as [srv prt pw [c|] [|]], w as [tr lg];
    unfold is_connected; simpl; try discriminate.
  intros _. exists c. split; [reflexivity|]. split.
  - unfold send_command, _ensure_connected; unfold_method.
    split_replies; reflexivity.
  - intros [srv0 prt0 pw0 c0] H. simpl in H. subst c0.
    unfold rcon.send_command; unfold_method. reflexivity.
Qed.

(** C5, as the code has it: along every sequence of requests from a new service,
    [is_connected] is [False] at the start, is [True] after a [connect]
    exactly when that [connect] returned, and after a [disconnect] is
    [False] unless the service was connected and the library's [close]
    raised, in which case it is still [True]. *)
Theorem C5_is_connected_tracks_connect_and_disconnect
  (str_lower : string -> string) (server : string) (port : Z)
  (password : string) (rs : list Request) :
  let st0 := (__init__ server port password, world0) in
  let st := after str_lower lib rs st0 in
  is_connected (fst st0) = false
  /\ is_connected (fst (snd (connect lib st))) = is_ok (fst (connect lib st))
  /\ is_connected (fst (snd (disconnect lib st)))
     = is_connected (fst st)
       && negb (is_ok (lib_proc lib (List.length (trace (snd st))))).
Proof.
  intros st0 st. split; [reflexivity|]. split; [apply connect_is_connected|].
  destruct st as [[srv prt pw [c|] [|]] [tr lg]];
    unfold disconnect, is_connected; unfold_method; try reflexivity.
  split_replies; reflexivity.
Qed.

(** C9: [disconnect] always returns; when the service is connected and the
    library's [close] raises, it records the call, logs the error at level
    ERROR, leaves the object as it was, and [is_connected] is still
    [True]. *)
Theorem C9_disconnect_swallows_close_error (self : RCONService) (w : World) :
  fst (disconnect lib (self, w)) = Ok tt
  /\
  forall c e,
    client self = Some c ->
    _connected self = true ->
    lib_proc lib (List.length (trace w)) = Raise e ->
    disconnect lib (self, w)
    = (Ok tt,
       (self,
        mkWorld (trace w ++ [CallMethod c "close" []])
          (log w ++ [mkLog ERROR ("Error during disconnect: " ++ exn_str e)])))
    /\ is_connected (fst (snd (disconnect lib (self, w)))) = true.
Proof.
  split; [apply disconnect_returns|].
  destruct self as [srv prt pw c0 b], w as [tr lg]. simpl.
  intros c e -> -> H.
  unfold disconnect, is_connected; unfold_method. rewrite H. simpl.
  split; reflexivity.
Qed.

End FullService.

(** ** The convenience methods *)

Section Conveniences.

Import rcon_service.

Lemma guarded_call_delegates (name : string) (args : list Arg) :
  delegates_to_client
    (_ensure_connected ;;;
     self <- get ;;
     c <- attr (client self) name ;;
     call_text c name args)
    name args.
Proof. intros lib [srv prt pw [c|] [|]] [tr lg]; reflexivity. Qed.

Lemma guarded_list_delegates {A} (read : Players -> A) :
  delegates_to_list
    (_ensure_connected ;;;
     self <- get ;;
     c <- attr (client self) "list" ;;
     r <- call_list c ;;
     ret (read r))
    read.
Proof.
  intros lib [srv prt pw [c|] [|]] [tr lg]; try reflexivity.
  unfold _ensure_connected; unfold_method.
  destruct (lib_players lib (List.length tr)); reflexivity.
Qed.

Lemma guarded_send_command_wraps (command : string) :
  wraps_send_command (_ensure_connected ;;; send_command command) command.
Proof. intros lib [[srv prt pw [c|] [|]] [tr lg]]; reflexivity. Qed.

Lemma send_title_wraps (player title subtitle : string) :
  wraps_send_command (send_title player title subtitle)
    (title_command player title subtitle).
Proof.
  unfold send_title, title_command.
  destruct (String.eqb subtitle EmptyString); simpl;
    apply guarded_send_command_wraps.
Qed.

Lemma clear_player_inventory_delegates
  (player : string) (item : option string) (count : option Z) :
  delegates_to_client (clear_player_inventory player item count)
    "clear" (clear_args player item count).
Proof.
  intros lib [srv prt pw [c|] [|]] [tr lg]; try reflexivity.
  unfold clear_player_inventory, clear_args, _ensure_connected.
  destruct item as [i|], count as [n|]; unfold_method;
    try destruct (String.eqb i EmptyString); simpl;
    try destruct (Z.eqb n 0); reflexivity.
Qed.

Lemma answer_fst {A} (f : A -> Answer) (m : Method A) lib st :
  fst (answer f m lib st)
  = match fst (m lib st) with Ok a => Ok (f a) | Raise e => Raise e end.
Proof.
  unfold answer, bind, ret. destruct (m lib st) as [[a|e] st']; reflexivity.
Qed.

Lemma answer_snd {A} (f : A -> Answer) (m : Method A) lib st :
  snd (answer f m lib st) = snd (m lib st).
Proof.
  unfold answer, bind, ret. destruct (m lib st) as [[a|e] st']; reflexivity.
Qed.

Lemma answer_keeps {A} (f : A -> Answer) (m : Method A) :
  keeps_credentials m -> keeps_credentials (answer f m).
Proof. intros H lib st. rewrite answer_snd. apply H. Qed.

Lemma answer_blind {A} (f : A -> Answer) (m : Method A) :
  password_blind m -> password_blind (answer f m).
Proof.
  intros H lib st1 st2 R. rewrite !answer_fst, !answer_snd.
  destruct (H lib st1 st2 R) as [-> HR]. split; [reflexivity | exact HR].
Qed.

Lemma connect_keeps : keeps_credentials connect.
Proof.
  intros lib [[srv prt pw c b] [tr lg]]. unfold connect; unfold_method.
  split_replies; repeat split; reflexivity.
Qed.

Lemma connect_blind : password_blind connect.
Proof.
  intros lib [[srv1 prt1 pw1 c1 b1] [tr1 lg1]] [[srv2 prt2 pw2 c2 b2] [tr2 lg2]].
  unfold same_but_password; simpl.
  intros (-> & -> & -> & -> & -> & Hlen).
  unfold connect; unfold_method. split_replies_of_both Hlen.
  all: repeat split; reflexivity.
Qed.

Lemma disconnect_keeps : keeps_credentials disconnect.
Proof.
  intros lib [[srv prt pw [c|] [|]] [tr lg]]; unfold disconnect; unfold_method;
    split_replies; repeat split; reflexivity.
Qed.

Lemma disconnect_blind : password_blind disconnect.
Proof.
  intros lib [[srv1 prt1 pw1 c1 b1] [tr1 lg1]] [[srv2 prt2 pw2 c2 b2] [tr2 lg2]].
  unfold same_but_password; simpl.
  intros (-> & -> & -> & -> & -> & Hlen).
  destruct c2 as [c|], b2; unfold disconnect; unfold_method;
    split_replies_of_both Hlen; repeat split; reflexivity.
Qed.

Lemma send_command_keeps (command : string) :
  keeps_credentials (send_command command).
Proof.
  intros lib [[srv prt pw [c|] [|]] [tr lg]];
    unfold send_command, _ensure_connected; unfold_method;
    split_replies; repeat split; reflexivity.
Qed.

Lemma send_command_blind (command : string) :
  password_blind (send_command command).
Proof.
  intros lib [[srv1 prt1 pw1 c1 b1] [tr1 lg1]] [[srv2 prt2 pw2 c2 b2] [tr2 lg2]].
  unfold same_but_password; simpl.
  intros (-> & -> & -> & -> & -> & Hlen).
  destruct c2 as [c|], b2; unfold send_command, _ensure_connected;
    unfold_method; split_replies_of_both Hlen; repeat split; reflexivity.
Qed.

Lemma wraps_keeps (m : Method string) (command : string) :
  wraps_send_command m command -> keeps_credentials m.
Proof. intros H lib st. rewrite H. apply send_command_keeps. Qed.

Lemma wraps_blind (m : Method string) (command : string) :
  wraps_send_command m command -> password_blind m.
Proof. intros H lib st1 st2 R. rewrite !H. now apply send_command_blind. Qed.

Lemma delegates_keeps (m : Method string) (name : string) (args : list Arg) :
  delegates_to_client m name args -> keeps_credentials m.
Proof.
  intros H lib [self w]. rewrite H.
  destruct (client self), (_connected self); repeat split; reflexivity.
Qed.

Lemma delegates_blind (m : Method string) (name : string) (args : list Arg) :
  delegates_to_client m name args -> password_blind m.
Proof.
  intros H lib [[srv1 prt1 pw1 c1 b1] [tr1 lg1]]
    [[srv2 prt2 pw2 c2 b2] [tr2 lg2]].
  unfold same_but_password; simpl.
  intros (-> & -> & -> & -> & -> & Hlen).
  rewrite !H. simpl. rewrite Hlen.
  destruct c2, b2; simpl; trace_length; rewrite ?Hlen;
    repeat split; reflexivity.
Qed.

Lemma list_keeps {A} (m : Method A) (read : Players -> A) :
  delegates_to_list m read -> keeps_credentials m.
Proof.
  intros H lib [self w]. rewrite H.
  destruct (client self), (_connected self); repeat split; reflexivity.
Qed.

Lemma list_blind {A} (m : Method A) (read : Players -> A) :
  delegates_to_list m read -> password_blind m.
Proof.
  intros H lib [[srv1 prt1 pw1 c1 b1] [tr1 lg1]]
    [[srv2 prt2 pw2 c2 b2] [tr2 lg2]].
  unfold same_but_password; simpl.
  intros (-> & -> & -> & -> & -> & Hlen).
  rewrite !H. simpl. rewrite Hlen.
  destruct c2, b2; simpl; trace_length; rewrite ?Hlen;
    repeat split; reflexivity.
Qed.

Ltac classify keeps_or_blind :=
  first [ eapply (proj1 keeps_or_blind); first
            [ exact (guarded_call_delegates _ _)
            | exact (clear_player_inventory_delegates _ _ _) ]
        | eapply (proj1 (proj2 keeps_or_blind)); first
            [ exact (guarded_send_command_wraps _)
            | exact (send_title_wraps _ _ _) ]
        | eapply (proj2 (proj2 keeps_or_blind));
          exact (guarded_list_delegates _) ].

Lemma perform_keeps (str_lower : string -> string) (r : Request) :
  keeps_credentials (perform str_lower r).
Proof.
  destruct r; simpl perform; apply answer_keeps;
    first [ exact connect_keeps | exact disconnect_keeps
          | exact (send_command_keeps _)
          | classify (conj delegates_keeps
                        (conj wraps_keeps (@list_keeps))) ].
Qed.

Lemma perform_blind (str_lower : string -> string) (r : Request) :
  password_blind (perform str_lower r).
Proof.
  destruct r; simpl perform; apply answer_blind;
    first [ exact connect_blind | exact disconnect_blind
          | exact (send_command_blind _)
          | classify (conj delegates_blind
                        (conj wraps_blind (@list_blind))) ].
Qed.

Lemma after_keeps (str_lower : string -> string) (lib : Library)
  (rs : list Request) :
  forall st,
    server (fst (after str_lower lib rs st)) = server (fst st)
    /\ port (fst (after str_lower lib rs st)) = port (fst st)
    /\ password (fst (after str_lower lib rs st)) = password (fst st).
Proof.
  induction rs as [|r rs IH]; intros st; simpl.
  - repeat split.
  - destruct (IH (snd (perform str_lower r lib st))) as (Hs & Hp & Hw).
    destruct (perform_keeps str_lower r lib st) as (Hs' & Hp' & Hw').
    repeat split; congruence.
Qed.

Lemma after_blind (str_lower : string -> string) (lib : Library)
  (rs : list Request) :
  forall st1 st2,
    same_but_password st1 st2 ->
    same_but_password (after str_lower lib rs st1) (after str_lower lib rs st2).
Proof.
  induction rs as [|r rs IH]; intros st1 st2 H; simpl; [exact H|].
  apply IH. now apply perform_blind.
Qed.

Lemma minimal_connect_keeps : rcon.keeps_credentials_and_log rcon.connect.
Proof.
  intros lib [[srv prt pw c] [tr lg]]. unfold rcon.connect; unfold_method.
  split_replies; repeat split; reflexivity.
Qed.

Lemma minimal_send_command_keeps (command : string) :
  rcon.keeps_credentials_and_log (rcon.send_command command).
Proof.
  intros lib [[srv prt pw [c|]] [tr lg]]; unfold rcon.send_command;
    unfold_method; repeat split; reflexivity.
Qed.

Lemma minimal_get_player_list_keeps :
  rcon.keeps_credentials_and_log rcon.get_player_list.
Proof.
  intros lib [[srv prt pw [c|]] [tr lg]]; unfold rcon.get_player_list;
    unfold_method; split_replies; repeat split; reflexivity.
Qed.

(** C6, as the code has it: the conveniences that build a command text ([save_all],
    [save_on], [save_off], [reload_server], [send_title],
    [get_server_version], [get_tps], [execute_as_player],
    [set_spawn_protection], [set_gamerule], [get_gamerule]) are
    [send_command] applied to that text, result and state alike; every other
    convenience is the connection guard followed by one use of the client's
    own method for it, whose result it passes on, without [send_command] and
    without logging. *)
Theorem C6_conveniences_wrap_send_command_or_delegate
  (str_lower : string -> string) :
  ((forall flush,
       wraps_send_command (save_all flush)
         (if flush then "save-all flush" else "save-all"))
   /\ wraps_send_command save_on "save-on"
   /\ wraps_send_command save_off "save-off"
   /\ wraps_send_command reload_server "reload"
   /\ (forall player title subtitle,
          wraps_send_command (send_title player title subtitle)
            (title_command player title subtitle))
   /\ wraps_send_command get_server_version "version"
   /\ wraps_send_command get_tps "tps"
   /\ (forall player command,
          wraps_send_command (execute_as_player player command)
            ("execute as " ++ player ++ " run " ++ command))
   /\ (forall radius,
          wraps_send_command (set_spawn_protection radius)
            ("gamerule spawnRadius " ++ str_int radius))
   /\ (forall rule value,
          wraps_send_command (set_gamerule str_lower rule value)
            ("gamerule " ++ rule ++ " " ++ str_lower (py_str value)))
   /\ (forall rule,
          wraps_send_command (get_gamerule rule) ("gamerule " ++ rule)))
  /\
  ((forall player reason,
       delegates_to_client (kick_player player reason)
         "kick" [AStr player; AStr reason])
   /\ (forall player reason,
          delegates_to_client (ban_player player reason)
            "ban" [AStr player; AStr reason])
   /\ (forall player,
          delegates_to_client (pardon_player player) "pardon" [AStr player])
   /\ (forall player,
          delegates_to_client (op_player player) "op" [AStr player])
   /\ (forall player,
          delegates_to_client (deop_player player) "deop" [AStr player])
   /\ (forall player,
          delegates_to_client (whitelist_add player)
            "whitelist" [AStr "add"; AStr player])
   /\ (forall player,
          delegates_to_client (whitelist_remove player)
            "whitelist" [AStr "remove"; AStr player])
   /\ delegates_to_client whitelist_list "whitelist" [AStr "list"]
   /\ delegates_to_client whitelist_on "whitelist" [AStr "on"]
   /\ delegates_to_client whitelist_off "whitelist" [AStr "off"]
   /\ delegates_to_client whitelist_reload "whitelist" [AStr "reload"]
   /\ delegates_to_client stop_server "stop" []
   /\ (forall message,
          delegates_to_client (broadcast_message message)
            "say" [AStr message])
   /\ (forall player message,
          delegates_to_client (tell_player player message)
            "tell" [AStr player; AStr message])
   /\ (forall time,
          delegates_to_client (set_time time)
            "time" [AStr "set"; AStr (py_str time)])
   /\ (forall time,
          delegates_to_client (add_time time)
            "time" [AStr "add"; AStr (str_int time)])
   /\ delegates_to_client get_time "time" [AStr "query"; AStr "gametime"]
   /\ (forall weather duration,
          delegates_to_client (set_weather weather duration)
            "weather" [AStr weather; AInt duration])
   /\ (forall difficulty,
          delegates_to_client (set_difficulty difficulty)
            "difficulty" [AStr difficulty])
   /\ (forall player gamemode,
          delegates_to_client (set_gamemode player gamemode)
            "gamemode" [AStr gamemode; AStr player])
   /\ (forall player x y z,
          delegates_to_client (teleport_player player x y z)
            "tp" [AStr player; AFloat x; AFloat y; AFloat z])
   /\ (forall player target,
          delegates_to_client (teleport_player_to_player player target)
            "tp" [AStr player; AStr target])
   /\ (forall player item count,
          delegates_to_client (give_item player item count)
            "give" [AStr player; AStr item; AInt count])
   /\ (forall player item count,
          delegates_to_client (clear_player_inventory player item count)
            "clear" (clear_args player item count))
   /\ delegates_to_client get_seed "seed" []
   /\ delegates_to_list get_player_list players
   /\ delegates_to_list get_player_count
        (fun r => (Z.of_nat (List.length (players r)), max r))).
Proof.
  split.
  - repeat split; intros;
      first [ exact (guarded_send_command_wraps _)
            | exact (send_title_wraps _ _ _) ].
  - repeat split; intros;
      first [ exact (guarded_call_delegates _ _)
            | exact (clear_player_inventory_delegates _ _ _)
            | exact (guarded_list_delegates _) ].
Qed.

(** C7: no operation of the service changes [server], [port] or
    [password], after one request on any state and after any sequence of
    requests from construction; and what is written to the log does not
    depend on the password: with the library's replies fixed, the log is the
    same whatever the password is.  The minimal variant keeps its
    credentials too and never logs. *)
Theorem C7_credentials_unchanged_and_not_logged
  (str_lower : string -> string) (lib : Library) :
  (forall r, keeps_credentials (perform str_lower r)
             /\ password_blind (perform str_lower r))
  /\
  (forall srv prt pw rs,
      let st := after str_lower lib rs (__init__ srv prt pw, world0) in
      server (fst st) = srv /\ port (fst st) = prt /\ password (fst st) = pw
      /\ forall pw',
          log (snd (after str_lower lib rs (__init__ srv prt pw', world0)))
          = log (snd st))
  /\
  (rcon.keeps_credentials_and_log rcon.connect
   /\ (forall command,
          rcon.keeps_credentials_and_log (rcon.send_command command))
   /\ rcon.keeps_credentials_and_log rcon.get_player_list).
Proof.
  split; [| split].
  - intros r. split; [apply perform_keeps | apply perform_blind].
  - intros srv prt pw rs st.
    destruct (after_keeps str_lower lib rs (__init__ srv prt pw, world0))
      as (Hs & Hp & Hw).
    repeat split; try assumption.
    intros pw'.
    apply (after_blind str_lower lib rs
             (__init__ srv prt pw', world0) (__init__ srv prt pw, world0)).
    repeat split.
  - split; [exact minimal_connect_keeps|].
    split; [exact minimal_send_command_keeps
           | exact minimal_get_player_list_keeps].
Qed.

(** C10: in the minimal variant, before any [connect], [get_player_list]
    raises the [AttributeError] of reading [list] on [None], where
    [send_command] raises the [RuntimeError] of its guard; neither uses the
    library. *)
Theorem C10_minimal_get_player_list_has_no_guard
  (lib : Library) (self : rcon.RCONService) (w : World) (command : string) :
  rcon.client self = None ->
  rcon.get_player_list lib (self, w)
  = (Raise (AttributeError "'NoneType' object has no attribute 'list'"),
     (self, w))
  /\ rcon.send_command command lib (self, w)
     = (Raise (RuntimeError "Not connected. Call connect() first."),
        (self, w))
  /\ exn_class (AttributeError "'NoneType' object has no attribute 'list'")
     <> exn_class (RuntimeError "Not connected. Call connect() first.").
Proof.
  destruct self as [srv prt pw c]. simpl. intros ->.
  repeat split. discriminate.
Qed.

End Conveniences.

(** ** The theorems at concrete services *)

Lemma C1_counterexample :
  (~ exists msg,
       fst (rcon_service.send_command "list" lib_ok fresh)
       = Raise (mkExn "ProtocolError" msg))
  /\ is_ok (fst (rcon.connect lib_wrong_password fresh_minimal)) = false
  /\ rcon.send_command "list" lib_wrong_password
       (snd (rcon.connect lib_wrong_password fresh_minimal))
     = (Ok "done",
        (rcon.mkRCONService "127.0.0.1" 25575 "Hatsune_Miku" (Some 0%nat),
         mkWorld
           [CallInit "127.0.0.1" 25575; CallMethod 0%nat "connect" [];
            CallMethod 0%nat "login" [AStr "Hatsune_Miku"];
            CallMethod 0%nat "run" [AStr "list"]]
           [])).
Proof.
  split; [| split; reflexivity].
  intros [msg H]. vm_compute in H. discriminate H.
Qed.

Lemma C1_witness :
  (rcon_service.is_connected (fst fresh) = false
   /\ rcon_service.send_command "list" lib_ok fresh
      = (Raise (RuntimeError "Not connected. Call connect() first."), fresh))
  /\ (is_ok (fst (rcon_service.connect lib_wrong_password fresh)) = false
      /\ rcon_service.send_command "list" lib_wrong_password
           (snd (rcon_service.connect lib_wrong_password fresh))
         = (Raise (RuntimeError "Not connected. Call connect() first."),
            snd (rcon_service.connect lib_wrong_password fresh)))
  /\ (rcon.client (fst fresh_minimal) = None
      /\ rcon.send_command "list" lib_ok fresh_minimal
         = (Raise (RuntimeError "Not connected. Call connect() first."),
            fresh_minimal)).
Proof.
  split; [| split]; (split; [reflexivity |]).
  - apply (proj1 (C1_send_command_not_connected_RuntimeError lib_ok "list")
             (fst fresh) (snd fresh)).
    reflexivity.
  - apply (proj1 (proj2 (C1_send_command_not_connected_RuntimeError
                           lib_wrong_password "list")) fresh).
    reflexivity.
  - apply (proj2 (proj2 (C1_send_command_not_connected_RuntimeError
                           lib_ok "list")) (fst fresh_minimal)
             (snd fresh_minimal)).
    reflexivity.
Defined.

Lemma C3_counterexample :
  fst (snd (rcon_service.disconnect lib_close_raises
              (snd (rcon_service.disconnect lib_close_raises
                      connected_close_raises))))
  <> fst (snd (rcon_service.disconnect lib_close_raises
                 connected_close_raises)).
Proof. vm_compute. discriminate. Qed.

Lemma C3_witness :
  lib_proc lib_ok (List.length (trace (snd connected))) = Ok tt
  /\ rcon_service.disconnect lib_ok
       (snd (rcon_service.disconnect lib_ok connected))
     = (Ok tt, snd (rcon_service.disconnect lib_ok connected)).
Proof.
  split; [reflexivity |].
  apply (proj2 (proj2 (C3_disconnect_idempotent_when_close_returns lib_ok
                         (fst connected) (snd connected)))).
  right. reflexivity.
Defined.

Lemma C4_witness :
  rcon_service.is_connected (fst connected) = true
  /\ rcon_service.send_command "list" lib_ok connected
     = (Ok "done",
        (fst connected,
         mkWorld
           (trace (snd connected) ++ [CallMethod 0%nat "run" [AStr "list"]])
           (log (snd connected)
              ++ [mkLog DEBUG "Command: list | Response: done"]))).
Proof.
  split; [reflexivity |].
  destruct (C4_send_command_delegates_to_run lib_ok "list"
              (fst connected) (snd connected) eq_refl) as (c & Hc & H & _).
  injection Hc as <-. exact H.
Defined.

Lemma C5_counterexample :
  rcon_service.is_connected
    (fst (rcon_service.after lower_ascii lib_close_raises
            [rcon_service.Connect; rcon_service.Disconnect] fresh))
  <> false.
Proof. vm_compute. discriminate. Qed.

Lemma C6_counterexample :
  ~ exists command,
      rcon_service.kick_player "Steve" "Kicked by admin" lib_ok connected
      = rcon_service.send_command command lib_ok connected.
Proof.
  intros [command H].
  apply (f_equal (fun r => List.length (log (snd (snd r))))) in H.
  vm_compute in H. discriminate H.
Qed.

Lemma C9_witness :
  (rcon_service.client (fst connected_close_raises) = Some 0%nat
   /\ rcon_service._connected (fst connected_close_raises) = true
   /\ lib_proc lib_close_raises
        (List.length (trace (snd connected_close_raises)))
      = Raise (mkExn "OSError" "Bad file descriptor"))
  /\ rcon_service.disconnect lib_close_raises connected_close_raises
     = (Ok tt,
        (fst connected_close_raises,
         mkWorld
           (trace (snd connected_close_raises)
              ++ [CallMethod 0%nat "close" []])
           (log (snd connected_close_raises)
              ++ [mkLog ERROR "Error during disconnect: Bad file descriptor"])))
  /\ rcon_service.is_connected
       (fst (snd (rcon_service.disconnect lib_close_raises
                    connected_close_raises))) = true.
Proof.
  split; [repeat split |].
  apply (proj2 (C9_disconnect_swallows_close_error lib_close_raises
                  (fst connected_close_raises) (snd connected_close_raises))
           0%nat (mkExn "OSError" "Bad file descriptor"));
    reflexivity.
Defined.

Lemma C10_witness :
  rcon.client (fst fresh_minimal) = None
  /\ rcon.get_player_list lib_ok fresh_minimal
     = (Raise (AttributeError "'NoneType' object has no attribute 'list'"),
        fresh_minimal)
  /\ rcon.send_command "list" lib_ok fresh_minimal
     = (Raise (RuntimeError "Not connected. Call connect() first."),
        fresh_minimal).
Proof.
  split; [reflexivity |].
  destruct (C10_minimal_get_player_list_has_no_guard lib_ok
              (fst fresh_minimal) (snd fresh_minimal) "list" eq_refl)
    as (H1 & H2 & _).
  split; [exact H1 | exact H2].
Defined.

(** ** The frame codec *)

Section Codec.

Import FrameCodec.

Lemma Z_of_byte_of_Z (z : Z) : Z_of_byte (byte_of_Z z) = z mod 256.
Proof.
  unfold Z_of_byte, byte_of_Z.
  pose proof (Z.mod_pos_bound z 256 eq_refl) as Hr.
  destruct (Byte.of_N (Z.to_N (z mod 256))) as [b|] eqn:E.
  - apply Byte.to_of_N in E. rewrite E. lia.
  - apply Byte.of_N_None_iff in E. lia.
Qed.

Lemma int32_of_le32 (x : Z) :
  is_int32 x ->
  match le32 x with
  | [b0; b1; b2; b3] => int32_of_le b0 b1 b2 b3 = x
  | _ => False
  end.
Proof.
  unfold is_int32, le32, int32_of_le. intros Hx.
  rewrite !Z_of_byte_of_Z, !Z.shiftr_div_pow2 by lia.
  change (2 ^ 8) with 256; change (2 ^ 16) with 65536;
    change (2 ^ 24) with 16777216; change (2 ^ 31) with 2147483648 in *;
    change (2 ^ 32) with 4294967296.
  destruct (Z.ltb_spec
              (x mod 256 + 256 * ((x / 256) mod 256)
               + 65536 * ((x / 65536) mod 256)
               + 16777216 * ((x / 16777216) mod 256)) 2147483648);
    Z.div_mod_to_equations; lia.
Qed.

Lemma firstn_skipn_app {A} (xs ys : list A) :
  firstn (List.length xs) (xs ++ ys) = xs
  /\ skipn (List.length xs) (xs ++ ys) = ys.
Proof.
  split.
  - rewrite firstn_app, Nat.sub_diag, firstn_all. simpl. apply app_nil_r.
  - rewrite skipn_app, Nat.sub_diag, skipn_all. reflexivity.
Qed.

Ltac ltb_false :=
  match goal with
  | |- context [Z.ltb ?a ?b] =>
      replace (Z.ltb a b) with false by (symmetry; apply Z.ltb_ge; lia)
  end.

(** C8: for every request id and packet type in the 32-bit range and every
    payload of at most [max_payload] bytes, [encode] gives a frame, and
    [tryDecode] of that frame, whatever follows it in the buffer, gives back
    the packet with these three values and the length of the frame as the
    number of bytes taken. *)
Theorem C8_tryDecode_encode_round_trip
  (requestId packetType : Z) (payload more : list byte) :
  is_int32 requestId ->
  is_int32 packetType ->
  Z.of_nat (List.length payload) <= max_payload ->
  exists frame,
    encode requestId packetType payload = Some frame
    /\ tryDecode frame
       = Frame (mkPacket requestId packetType payload) (List.length frame)
    /\ tryDecode (frame ++ more)
       = Frame (mkPacket requestId packetType payload) (List.length frame).
Proof.
  intros Hid Hty Hlen. unfold max_payload in Hlen.
  assert (Hround : forall rest,
             tryDecode
               ((le32 (Z.of_nat (List.length payload) + 10) ++ le32 requestId
                   ++ le32 packetType ++ payload ++ [x00; x00]) ++ rest)
             = Frame (mkPacket requestId packetType payload)
                 (List.length payload + 14)).
  { intros rest.
    assert (HL : is_int32 (Z.of_nat (List.length payload) + 10))
      by (unfold is_int32; lia).
    pose proof (int32_of_le32 _ HL) as EL.
    pose proof (int32_of_le32 _ Hid) as Eid.
    pose proof (int32_of_le32 _ Hty) as Ety.
    unfold le32 in *. cbn [app]. unfold tryDecode.
    rewrite EL. cbn [List.length].
    rewrite !length_app. cbn [List.length].
    ltb_false. ltb_false.
    replace (Z.to_nat (Z.of_nat (List.length payload) + 10))
      with (8 + (List.length payload + 2))%nat by lia.
    cbn [firstn Nat.add].
    replace (S (S (S (S (S (S (S (S (List.length payload + 2))))))))
             - 10)%nat with (List.length payload) by lia.
    rewrite <- app_assoc.
    rewrite (firstn_app (List.length payload + 2)).
    rewrite firstn_all2 by lia.
    replace (List.length payload + 2 - List.length payload)%nat
      with 2%nat by lia.
    cbn [firstn app].
    destruct (firstn_skipn_app payload [x00; x00]) as [Hf Hs].
    rewrite Hs, Hf. cbn [Byte.eqb]. rewrite Eid, Ety.
    simpl. do 2 f_equal. lia. }
  exists (le32 (Z.of_nat (List.length payload) + 10) ++ le32 requestId
            ++ le32 packetType ++ payload ++ [x00; x00])%list.
  assert (Hn : List.length
                 (le32 (Z.of_nat (List.length payload) + 10) ++ le32 requestId
                    ++ le32 packetType ++ payload ++ [x00; x00])
               = (List.length payload + 14)%nat).
  { rewrite !length_app. simpl. lia. }
  rewrite Hn. split; [| split].
  - unfold encode, max_payload.
    destruct (Z.ltb_spec 4096 (Z.of_nat (List.length payload))); [lia|].
    reflexivity.
  - rewrite <- (app_nil_r (le32 _ ++ _)). apply Hround.
  - apply Hround.
Qed.

End Codec.

Example encode_auth_failure_reply :
  FrameCodec.encode (-1) FrameCodec.AuthResponse []
  = Some [Byte.x0a; Byte.x00; Byte.x00; Byte.x00;
          Byte.xff; Byte.xff; Byte.xff; Byte.xff;
          Byte.x02; Byte.x00; Byte.x00; Byte.x00;
          Byte.x00; Byte.x00].
Proof. vm_compute. reflexivity. Qed.

Example tryDecode_short_buffer :
  FrameCodec.tryDecode
    [Byte.x0a; Byte.x00; Byte.x00; Byte.x00;
     Byte.xff; Byte.xff; Byte.xff; Byte.xff;
     Byte.x02; Byte.x00; Byte.x00; Byte.x00; Byte.x00]
  = FrameCodec.Incomplete.
Proof. vm_compute. reflexivity. Qed.

Example tryDecode_bad_terminator :
  FrameCodec.tryDecode
    [Byte.x0a; Byte.x00; Byte.x00; Byte.x00;
     Byte.xff; Byte.xff; Byte.xff; Byte.xff;
     Byte.x02; Byte.x00; Byte.x00; Byte.x00;
     Byte.x00; Byte.x01]
  = FrameCodec.CorruptFrame.
Proof. vm_compute. reflexivity. Qed.

Lemma C8_witness :
  (FrameCodec.is_int32 1 /\ FrameCodec.is_int32 FrameCodec.Command
   /\ Z.of_nat (List.length [Byte.x6c; Byte.x69; Byte.x73; Byte.x74])
      <= FrameCodec.max_payload)
  /\ exists frame,
      FrameCodec.encode 1 FrameCodec.Command
        [Byte.x6c; Byte.x69; Byte.x73; Byte.x74] = Some frame
      /\ FrameCodec.tryDecode frame
         = FrameCodec.Frame
             (FrameCodec.mkPacket 1 FrameCodec.Command
                [Byte.x6c; Byte.x69; Byte.x73; Byte.x74])
             (List.length frame)
      /\ FrameCodec.tryDecode (frame ++ [Byte.x0a])
         = FrameCodec.Frame
             (FrameCodec.mkPacket 1 FrameCodec.Command
                [Byte.x6c; Byte.x69; Byte.x73; Byte.x74])
             (List.length frame).
Proof.
  assert (H1 : FrameCodec.is_int32 1) by (unfold FrameCodec.is_int32; lia).
  assert (H2 : FrameCodec.is_int32 FrameCodec.Command)
    by (unfold FrameCodec.is_int32, FrameCodec.Command; lia).
  assert (H3 : Z.of_nat (List.length [Byte.x6c; Byte.x69; Byte.x73; Byte.x74])
               <= FrameCodec.max_payload)
    by (unfold FrameCodec.max_payload; simpl; lia).
  split; [repeat split; assumption |].
  exact (C8_tryDecode_encode_round_trip 1 FrameCodec.Command
           [Byte.x6c; Byte.x69; Byte.x73; Byte.x74] [Byte.x0a] H1 H2 H3).
Defined.

Lemma C6_witness :
  rcon_service.set_gamerule lower_ascii "keepInventory" (VBool true)
    lib_ok connected
  = rcon_service.send_command "gamerule keepInventory true" lib_ok connected
  /\ rcon_service.kick_player "Steve" "Kicked by admin" lib_ok connected
     = (Ok "done",
        (fst connected,
         mkWorld
           (trace (snd connected)
              ++ [CallMethod 0%nat "kick"
                    [AStr "Steve"; AStr "Kicked by admin"]])
           (log (snd connected)))).
Proof.
  destruct (C6_conveniences_wrap_send_command_or_delegate lower_ascii)
    as [Hwraps Hdelegates].
  split.
  - exact (proj1 (proj2 (proj2 (proj2 (proj2 (proj2 (proj2 (proj2 (proj2
             (proj2 Hwraps)))))))))
             "keepInventory" (VBool true) lib_ok connected).
  - exact (proj1 Hdelegates "Steve" "Kicked by admin" lib_ok
             (fst connected) (snd connected)).
Defined.

Lemma C7_witness :
  rcon_service.password
    (fst (rcon_service.after lower_ascii lib_ok
            [rcon_service.Connect; rcon_service.SendCommand "list";
             rcon_service.Disconnect] fresh))
  = "Hatsune_Miku"
  /\ log (snd (rcon_service.after lower_ascii lib_ok
                 [rcon_service.Connect; rcon_service.SendCommand "list";
                  rcon_service.Disconnect]
                 (rcon_service.__init__ "127.0.0.1" 25575 "hunter2", world0)))
     = log (snd (rcon_service.after lower_ascii lib_ok
                   [rcon_service.Connect; rcon_service.SendCommand "list";
                    rcon_service.Disconnect] fresh)).
Proof.
  destruct (proj1 (proj2 (C7_credentials_unchanged_and_not_logged
                            lower_ascii lib_ok))
              "127.0.0.1" 25575 "Hatsune_Miku"
              [rcon_service.Connect; rcon_service.SendCommand "list";
               rcon_service.Disconnect])
    as (_ & _ & Hpw & Hlog).
  split; [exact Hpw | exact (Hlog "hunter2")].
Defined.

(** ** More of the service: guards, frames and the uses of the library *)

Section Commands.

Import rcon_service.

Lemma send_command_wraps_itself (command : string) :
  wraps_send_command (send_command command) command.
Proof. intros lib st. reflexivity. Qed.

Lemma Request_is_connect_or_disconnect (r : Request) :
  {r = Connect} + {r = Disconnect} + {r <> Connect /\ r <> Disconnect}.
Proof.
  destruct r; first [ left; left; reflexivity | left; right; reflexivity
                    | right; split; discriminate ].
Qed.

Lemma perform_command_shape (str_lower : string -> string) (r : Request) :
  r <> Connect -> r <> Disconnect -> command_shape (perform str_lower r).
Proof.
  destruct r; intros HC HD; try congruence; simpl perform;
    first [ eapply shape_send; first
              [ exact (send_command_wraps_itself _)
              | exact (guarded_send_command_wraps _)
              | exact (send_title_wraps _ _ _) ]
          | eapply shape_client; first
              [ exact (guarded_call_delegates _ _)
              | exact (clear_player_inventory_delegates _ _ _) ]
          | eapply shape_list; exact (guarded_list_delegates _) ].
Qed.

Lemma answer_run {A} (f : A -> Answer) (m : Method A) lib st :
  answer f m lib st
  = (match fst (m lib st) with Ok a => Ok (f a) | Raise e => Raise e end,
     snd (m lib st)).
Proof.
  unfold answer, bind, ret. destruct (m lib st) as [[a|e] st']; reflexivity.
Qed.

(** What [send_command] does, in one equation. *)
Lemma send_command_run (command : string) lib self w :
  send_command command lib (self, w)
  = match client self, _connected self with
    | Some c, true =>
        (lib_text lib (List.length (trace w)),
         (self,
          mkWorld (trace w ++ [CallMethod c "run" [AStr command]])
            (log w ++
               [match lib_text lib (List.length (trace w)) with
                | Ok response =>
                    mkLog DEBUG
                      ("Command: " ++ command ++ " | Response: " ++ response)
                | Raise e =>
                    mkLog ERROR ("Command execution failed: " ++ exn_str e)
                end])))
    | _, _ =>
        (Raise (RuntimeError "Not connected. Call connect() first."),
         (self, w))
    end.
Proof.
  destruct self as [srv prt pw [c|] [|]], w as [tr lg]; try reflexivity.
  unfold send_command, _ensure_connected; unfold_method.
  split_replies; reflexivity.
Qed.

Ltac finish_extension :=
  simpl; rewrite ?app_nil_r; repeat split;
  first [ reflexivity | lia | intros; discriminate | intros; reflexivity ].

Lemma command_not_connected (m : Method Answer) :
  command_shape m ->
  forall lib self w,
    is_connected self = false ->
    m lib (self, w)
    = (Raise (RuntimeError "Not connected. Call connect() first."), (self, w)).
Proof.
  intros [m' command H | m' name args H | A m' read f H] lib self w Hc;
    rewrite answer_run, H; try rewrite send_command_run;
    destruct self as [srv prt pw [c|] [|]]; try discriminate Hc; reflexivity.
Qed.

Lemma command_frame (m : Method Answer) :
  command_shape m ->
  forall lib self w,
    fst (snd (m lib (self, w))) = self
    /\ exists calls records,
        trace (snd (snd (m lib (self, w)))) = (trace w ++ calls)%list
        /\ log (snd (snd (m lib (self, w)))) = (log w ++ records)%list
        /\ (List.length calls <= 1)%nat
        /\ (List.length records <= 1)%nat
        /\ (is_connected self = true -> List.length calls = 1%nat).
Proof.
  intros [m' command H | m' name args H | A m' read f H] lib self w;
    rewrite answer_run; cbn [fst snd]; first [rewrite (H lib (self, w)) | rewrite (H lib self w)];
    rewrite ?send_command_run;
    destruct self as [srv prt pw [c|] [|]]; simpl;
    unfold is_connected; simpl; (split; [reflexivity |]);
    solve [ exists [], []; finish_extension
          | eexists [_], []; finish_extension
          | eexists [_], [_]; finish_extension ].
Qed.

Lemma disconnect_run lib self w :
  disconnect lib (self, w)
  = match client self, _connected self with
    | Some c, true =>
        match lib_proc lib (List.length (trace w)) with
        | Ok _ =>
            (Ok tt,
             (set_connected false self,
              mkWorld (trace w ++ [CallMethod c "close" []])
                (log w ++ [mkLog INFO "Disconnected from RCON server"])))
        | Raise e =>
            (Ok tt,
             (self,
              mkWorld (trace w ++ [CallMethod c "close" []])
                (log w ++
                   [mkLog ERROR ("Error during disconnect: " ++ exn_str e)])))
        end
    | _, _ => (Ok tt, (self, w))
    end.
Proof.
  destruct self as [srv prt pw [c|] [|]], w as [tr lg]; try reflexivity.
  unfold disconnect; unfold_method. split_replies; reflexivity.
Qed.

(** X1: every operation other than [connect] and [disconnect], called on a
    service that is not connected, raises the [RuntimeError] of the guard
    and neither uses the library, nor logs, nor changes the object. *)
Theorem X1_every_command_is_guarded
  (str_lower : string -> string) (lib : Library) (r : Request)
  (self : RCONService) (w : World) :
  r <> Connect -> r <> Disconnect ->
  is_connected self = false ->
  perform str_lower r lib (self, w)
  = (Raise (RuntimeError "Not connected. Call connect() first."), (self, w)).
Proof.
  intros HC HD. apply command_not_connected.
  now apply perform_command_shape.
Qed.

(** X2: an operation other than [connect] and [disconnect] never changes
    the service object, whether the library returns or raises, so a command
    that fails does not mark the service as disconnected; it uses the
    library at most once, exactly once when the service is connected, and
    writes at most one log record, after what was there. *)
Theorem X2_command_leaves_service_as_it_is
  (str_lower : string -> string) (lib : Library) (r : Request)
  (self : RCONService) (w : World) :
  r <> Connect -> r <> Disconnect ->
  let st' := snd (perform str_lower r lib (self, w)) in
  fst st' = self
  /\ exists calls records,
      trace (snd st') = (trace w ++ calls)%list
      /\ log (snd st') = (log w ++ records)%list
      /\ (List.length calls <= 1)%nat
      /\ (List.length records <= 1)%nat
      /\ (is_connected self = true -> List.length calls = 1%nat).
Proof.
  intros HC HD. apply command_frame. now apply perform_command_shape.
Qed.


(** X4: [disconnect] changes nothing in the object but the flag
    [_connected], which it never sets: the client stays referenced after a
    disconnect.  It uses the library only when the service is connected,
    and then only for one [close] of the current client. *)
Theorem X4_disconnect_changes_only_the_flag
  (lib : Library) (self : RCONService) (w : World) :
  let st' := snd (disconnect lib (self, w)) in
  fst st' = set_connected (_connected (fst st')) self
  /\ (_connected (fst st') = true -> _connected self = true)
  /\ trace (snd st')
     = match client self with
       | Some c =>
           if _connected self
           then (trace w ++ [CallMethod c "close" []])%list
           else trace w
       | None => trace w
       end.
Proof.
  simpl. rewrite disconnect_run.
  destruct self as [srv prt pw [c|] [|]]; simpl;
    try destruct (lib_proc lib (List.length (trace w)));
    repeat split; first [reflexivity | assumption | intros; assumption].
Qed.

Lemma perform_well_formed (str_lower : string -> string) (lib : Library)
  (r : Request) (st : RCONService * World) :
  well_formed st -> well_formed (snd (perform str_lower r lib st)).
Proof.
  destruct st as [self w]. intros H.
  destruct (Request_is_connect_or_disconnect r) as [[-> | ->] | [HC HD]].
  - simpl perform. rewrite answer_snd.
    destruct self as [srv prt pw c b], w as [tr lg].
    unfold well_formed in *. unfold connect; unfold_method.
    simpl in H.
    split_replies; trace_length; split_replies; trace_length;
      try lia.
    destruct c; [lia | reflexivity].
  - simpl perform. rewrite answer_snd, disconnect_run.
    destruct self as [srv prt pw [c|] [|]], w as [tr lg];
      unfold well_formed in *; simpl in *;
      try destruct (lib_proc lib (List.length tr)); simpl; trace_length;
      (lia || assumption).
  - destruct (command_frame _ (perform_command_shape str_lower r HC HD)
                lib self w) as (Hs & calls & records & Ht & _).
    unfold well_formed in *. rewrite Hs, Ht. simpl in *.
    destruct (client self); [rewrite length_app; lia | assumption].
Qed.

Lemma after_well_formed (str_lower : string -> string) (lib : Library)
  (rs : list Request) :
  forall st, well_formed st -> well_formed (after str_lower lib rs st).
Proof.
  induction rs as [|r rs IH]; intros st H; simpl; [exact H|].
  apply IH. now apply perform_well_formed.
Qed.

(** X5: after any sequence of operations on a new service, a service
    whose flag [_connected] is set has a client, so [is_connected()] is the
    flag, and the client it holds was constructed by an earlier use of the
    library. *)
Theorem X5_connected_service_has_a_client
  (str_lower : string -> string) (lib : Library)
  (srv : string) (prt : Z) (pw : string) (rs : list Request) :
  let st := after str_lower lib rs (__init__ srv prt pw, world0) in
  is_connected (fst st) = _connected (fst st)
  /\ match client (fst st) with
     | Some c => (c < List.length (trace (snd st)))%nat
     | None => _connected (fst st) = false
     end.
Proof.
  intros st.
  assert (H : well_formed st) by (apply after_well_formed; reflexivity).
  split; [| exact H].
  unfold well_formed in H. unfold is_connected.
  destruct (client (fst st)); [apply andb_true_r | rewrite H; reflexivity].
Qed.

(** X6: after any sequence of operations on a new service, [repr] shows
    the server, the port and [Connected] exactly when [is_connected()] is
    true; the password is no part of it. *)
Theorem X6_repr_shows_the_connection_state
  (str_lower : string -> string) (lib : Library)
  (srv : string) (prt : Z) (pw : string) (rs : list Request) :
  let st := after str_lower lib rs (__init__ srv prt pw, world0) in
  __repr__ (fst st)
  = "RCONService(" ++ srv ++ ":" ++ str_int prt ++ ", "
      ++ (if is_connected (fst st) then "Connected" else "Disconnected")
      ++ ")".
Proof.
  intros st.
  destruct (after_keeps str_lower lib rs (__init__ srv prt pw, world0))
    as (Hs & Hp & _).
  assert (H : well_formed st) by (apply after_well_formed; reflexivity).
  fold st in Hs, Hp. simpl in Hs, Hp.
  unfold __repr__. rewrite Hs, Hp.
  unfold well_formed in H. unfold is_connected.
  destruct (client (fst st)); [rewrite andb_true_r | rewrite H]; reflexivity.
Qed.

End Commands.

(** ** Context managers *)

Section ContextManagers.

Import rcon_service.

Context {A : Type}.

Lemma disconnect_outcome lib st :
  disconnect lib st = (Ok tt, snd (disconnect lib st)).
Proof.
  pose proof (disconnect_returns lib st) as H.
  destruct (disconnect lib st) as [r st']. simpl in *. now subst r.
Qed.

Lemma disconnect_after_failed_connect lib st :
  is_ok (fst (connect lib st)) = false ->
  disconnect lib (snd (connect lib st)) = (Ok tt, snd (connect lib st)).
Proof.
  intros H. pose proof (connect_is_connected lib st) as Hc. rewrite H in Hc.
  destruct (snd (connect lib st)) as [self' w'] eqn:E. simpl in Hc.
  rewrite disconnect_run.
  unfold is_connected in Hc.
  destruct (client self'), (_connected self'); try discriminate; reflexivity.
Qed.

(** X7: [with service.connection(): body] connects only when the flag
    [_connected] is not set.  When that [connect] raises, the body does not
    run, the [ConnectionError] is the outcome and the state is the one
    [connect] left.  Otherwise the body runs once, then [disconnect], and
    the outcome is the body's, returned or raised. *)
Theorem X7_connection_runs_body_then_disconnects
  (body : Method A) (lib : Library) (self : RCONService) (w : World) :
  let entered :=
    if _connected self then (Ok true, (self, w)) else connect lib (self, w) in
  connection body lib (self, w)
  = match entered with
    | (Ok _, st1) =>
        (fst (body lib st1), snd (disconnect lib (snd (body lib st1))))
    | (Raise e, st1) => (Raise e, st1)
    end.
Proof.
  unfold connection, try_finally, bind at 1, get. cbn [fst snd].
  destruct (_connected self) eqn:Hb; cbn [negb].
  - unfold bind, ret. destruct (body lib (self, w)) as [r st2].
    rewrite disconnect_outcome. reflexivity.
  - unfold bind at 1 2, ret.
    pose proof (disconnect_after_failed_connect lib (self, w)) as Hf.
    destruct (connect lib (self, w)) as [[b|e] st1]; cbn [fst snd is_ok] in *.
    + destruct (body lib st1) as [r st2].
      rewrite disconnect_outcome. reflexivity.
    + rewrite (Hf eq_refl). reflexivity.
Qed.

(** X8: [with service: body] always starts with [connect], also on a
    service that is connected.  When it raises, neither the body nor
    [disconnect] runs; otherwise the body runs once, then [disconnect], and
    the outcome is the body's, returned or raised. *)
Theorem X8_with_connects_runs_body_then_disconnects
  (body : Method A) (lib : Library) (st : RCONService * World) :
  with_ body lib st
  = match connect lib st with
    | (Ok _, st1) =>
        (fst (body lib st1), snd (disconnect lib (snd (body lib st1))))
    | (Raise e, st1) => (Raise e, st1)
    end.
Proof.
  unfold with_, __enter__, __exit__, try_finally, bind, ret.
  destruct (connect lib st) as [[b|e] st1]; [| reflexivity].
  destruct (body lib st1) as [r st2].
  rewrite disconnect_outcome. reflexivity.
Qed.

End ContextManagers.

(** ** Edge cases of one convenience, and the minimal variant *)

Section Edges.

Import rcon_service.

(** X9: [clear_player_inventory] drops a count of zero, and drops both
    the item and the count when the item is [None] or the empty text, so a
    count given without an item is not sent. *)
Theorem X9_clear_player_inventory_drops_falsy_arguments
  (player : string) (lib : Library) (st : RCONService * World) :
  (forall count,
      clear_player_inventory player None count lib st
      = clear_player_inventory player None None lib st)
  /\ (forall count,
         clear_player_inventory player (Some EmptyString) count lib st
         = clear_player_inventory player None None lib st)
  /\ (forall item,
         clear_player_inventory player (Some item) (Some 0) lib st
         = clear_player_inventory player (Some item) None lib st).
Proof.
  destruct st as [self w].
  repeat split; intros; rewrite !clear_player_inventory_delegates;
    unfold clear_args; simpl;
    try destruct (String.eqb item EmptyString); reflexivity.
Qed.

(** X10: in the minimal variant [connect] raises what the library raised,
    as it is, and the client is kept from the moment it is constructed,
    whether its [connect] and [login] return or raise. *)
Theorem X10_minimal_connect_keeps_the_client
  (lib : Library) (self : rcon.RCONService) (w : World) :
  let n := List.length (trace w) in
  let r := rcon.connect lib (self, w) in
  fst r
  = match lib_new lib n with
    | Raise e => Raise e
    | Ok _ =>
        match lib_proc lib (S n) with
        | Raise e => Raise e
        | Ok _ => lib_proc lib (S (S n))
        end
    end
  /\ rcon.client (fst (snd r))
     = match lib_new lib n with
       | Raise _ => rcon.client self
       | Ok _ => Some n
       end.
Proof.
  destruct self as [srv prt pw c], w as [tr lg].
  unfold rcon.connect; unfold_method.
  trace_length. repeat (split_reply; trace_length).
  all: split; reflexivity.
Qed.

(** X11: in the minimal variant, once [connect] has constructed the
    client, [send_command] passes its guard and hands the command to the
    client's [run], also when that [connect] raised: a failed login does not
    stop later commands from being sent. *)
Theorem X11_minimal_send_command_after_any_connect
  (lib : Library) (st : rcon.RCONService * World) (command : string) :
  lib_new lib (List.length (trace (snd st))) = Ok tt ->
  let st1 := snd (rcon.connect lib st) in
  rcon.send_command command lib st1
  = (lib_text lib (List.length (trace (snd st1))),
     (fst st1,
      mkWorld
        (trace (snd st1)
           ++ [CallMethod (List.length (trace (snd st))) "run"
                 [AStr command]])
        (log (snd st1)))).
Proof.
  destruct st as [[srv prt pw c] [tr lg]]. simpl. intros H.
  unfold rcon.connect, rcon.send_command; unfold_method. rewrite H. simpl.
  split_replies; reflexivity.
Qed.

End Edges.

(** ** The main window *)

Section Window.

Import MainGUI.

Variable strftime : nat -> string.
Variable str_strip : string -> string.
Variable str_lower : string -> string.

(** *** Service methods the window uses *)

Lemma wraps_inert (m : rcon_service.Method string) (command : string) :
  rcon_service.wraps_send_command m command -> rcon_service.inert m.
Proof.
  intros H lib self w. rewrite (H lib (self, w)), send_command_run.
  unfold rcon_service.is_connected.
  destruct self as [srv prt pw [c|] [|]]; simpl;
    (split; [reflexivity |]); (split; [| intros; (discriminate || reflexivity)]).
  - eexists [_], [_]. split; reflexivity.
  - exists [], []. rewrite !app_nil_r. split; reflexivity.
  - exists [], []. rewrite !app_nil_r. split; reflexivity.
  - exists [], []. rewrite !app_nil_r. split; reflexivity.
Qed.

Lemma delegates_inert (m : rcon_service.Method string) (name : string)
  (args : list Arg) :
  rcon_service.delegates_to_client m name args -> rcon_service.inert m.
Proof.
  intros H lib self w. rewrite (H lib self w).
  unfold rcon_service.is_connected.
  destruct self as [srv prt pw [c|] [|]]; simpl;
    (split; [reflexivity |]); (split; [| intros; (discriminate || reflexivity)]).
  - eexists [_], []. rewrite !app_nil_r. split; reflexivity.
  - exists [], []. rewrite !app_nil_r. split; reflexivity.
  - exists [], []. rewrite !app_nil_r. split; reflexivity.
  - exists [], []. rewrite !app_nil_r. split; reflexivity.
Qed.

Lemma list_inert {A} (m : rcon_service.Method A) (read : Players -> A) :
  rcon_service.delegates_to_list m read -> rcon_service.inert m.
Proof.
  intros H lib self w. rewrite (H lib self w).
  unfold rcon_service.is_connected.
  destruct self as [srv prt pw [c|] [|]]; simpl;
    (split; [reflexivity |]); (split; [| intros; (discriminate || reflexivity)]).
  - eexists [_], []. rewrite !app_nil_r. split; reflexivity.
  - exists [], []. rewrite !app_nil_r. split; reflexivity.
  - exists [], []. rewrite !app_nil_r. split; reflexivity.
  - exists [], []. rewrite !app_nil_r. split; reflexivity.
Qed.

Lemma inert_get_player_list : rcon_service.inert rcon_service.get_player_list.
Proof. exact (list_inert _ _ (guarded_list_delegates _)). Qed.

Lemma inert_get_player_count :
  rcon_service.inert rcon_service.get_player_count.
Proof.
  exact (list_inert _ _
           (guarded_list_delegates
              (fun r => (Z.of_nat (List.length (players r)), max r)))).
Qed.

Lemma inert_send_command (command : string) :
  rcon_service.inert (rcon_service.send_command command).
Proof. exact (wraps_inert _ _ (send_command_wraps_itself command)). Qed.

Lemma inert_save_all (flush : bool) :
  rcon_service.inert (rcon_service.save_all flush).
Proof. exact (wraps_inert _ _ (guarded_send_command_wraps _)). Qed.

Lemma inert_reload_server : rcon_service.inert rcon_service.reload_server.
Proof. exact (wraps_inert _ _ (guarded_send_command_wraps _)). Qed.

Lemma inert_get_seed : rcon_service.inert rcon_service.get_seed.
Proof. exact (delegates_inert _ _ _ (guarded_call_delegates _ _)). Qed.

Lemma inert_stop_server : rcon_service.inert rcon_service.stop_server.
Proof. exact (delegates_inert _ _ _ (guarded_call_delegates _ _)). Qed.

Lemma inert_broadcast_message (message : string) :
  rcon_service.inert (rcon_service.broadcast_message message).
Proof. exact (delegates_inert _ _ _ (guarded_call_delegates _ _)). Qed.

Lemma inert_kick_player (player reason : string) :
  rcon_service.inert (rcon_service.kick_player player reason).
Proof. exact (delegates_inert _ _ _ (guarded_call_delegates _ _)). Qed.

Lemma inert_ban_player (player reason : string) :
  rcon_service.inert (rcon_service.ban_player player reason).
Proof. exact (delegates_inert _ _ _ (guarded_call_delegates _ _)). Qed.

Lemma inert_tell_player (player message : string) :
  rcon_service.inert (rcon_service.tell_player player message).
Proof. exact (delegates_inert _ _ _ (guarded_call_delegates _ _)). Qed.

(** *** Methods that leave the service and the flag alone *)

Lemma set_rcon_service_same (self : MinecraftRCONGUI) service :
  rcon_service self = Some service ->
  set_rcon_service (Some service) self = self.
Proof. destruct self; simpl. intros ->. reflexivity. Qed.

Lemma on_service_inert {A} (name : string) (m : rcon_service.Method A)
  lib self w service :
  rcon_service.inert m ->
  rcon_service self = Some service ->
  on_service name m lib (self, w)
  = (fst (m lib (service, w)), (self, snd (snd (m lib (service, w))))).
Proof.
  intros Hm Hs. unfold on_service. simpl. rewrite Hs.
  destruct (Hm lib service w) as (Hself & _).
  destruct (m lib (service, w)) as [r [service' w']]. simpl in *.
  subst service'. now rewrite set_rcon_service_same.
Qed.

Lemma quiet_ret {A} (a : A) : quiet (ret a).
Proof.
  intros lib st. simpl. repeat split. exists []. now rewrite app_nil_r.
Qed.

Lemma quiet_raise {A} (e : Exn) : quiet (@raise _ A e).
Proof.
  intros lib st. simpl. repeat split. exists []. now rewrite app_nil_r.
Qed.

Lemma quiet_get : quiet (@get MinecraftRCONGUI).
Proof.
  intros lib st. simpl. repeat split. exists []. now rewrite app_nil_r.
Qed.

Lemma quiet_bind {A B} (m : Method A) (k : A -> Method B) :
  quiet m -> (forall a, quiet (k a)) -> quiet (bind m k).
Proof.
  intros Hm Hk lib st. unfold bind.
  destruct (Hm lib st) as (Hs & Hc & calls & Ht).
  destruct (m lib st) as [[a|e] st1]; simpl in *.
  - destruct (Hk a lib st1) as (Hs' & Hc' & calls' & Ht').
    repeat split; try congruence.
    exists (calls ++ calls')%list. rewrite Ht', Ht. now rewrite app_assoc.
  - repeat split; try assumption. now exists calls.
Qed.

Lemma quiet_try_except {A} (body : Method A) (handler : Exn -> Method A) :
  quiet body -> (forall e, quiet (handler e)) -> quiet (try_except body handler).
Proof.
  intros Hm Hk lib st. unfold try_except.
  destruct (Hm lib st) as (Hs & Hc & calls & Ht).
  destruct (body lib st) as [[a|e] st1]; simpl in *.
  - repeat split; try assumption. now exists calls.
  - destruct (Hk e lib st1) as (Hs' & Hc' & calls' & Ht').
    repeat split; try congruence.
    exists (calls ++ calls')%list. rewrite Ht', Ht. now rewrite app_assoc.
Qed.

Lemma quiet_modify (f : MinecraftRCONGUI -> MinecraftRCONGUI) :
  (forall self, rcon_service (f self) = rcon_service self
                /\ connected (f self) = connected self) ->
  quiet (modify f).
Proof.
  intros Hf lib [self w]. simpl. destruct (Hf self) as [-> ->].
  repeat split. exists []. now rewrite app_nil_r.
Qed.

Lemma quiet_logger (lvl : Level) (msg : string) :
  quiet (@logger MinecraftRCONGUI lvl msg).
Proof.
  intros lib [self w]. simpl. repeat split. exists []. now rewrite app_nil_r.
Qed.

Lemma quiet_on_service {A} (name : string) (m : rcon_service.Method A) :
  rcon_service.inert m -> quiet (on_service name m).
Proof.
  intros Hm lib [self w].
  destruct (rcon_service self) as [service|] eqn:Hs.
  - rewrite (on_service_inert name m lib self w service Hm Hs). simpl.
    destruct (Hm lib service w) as (_ & (calls & records & Ht & _) & _).
    repeat split; try assumption. now exists calls.
  - unfold on_service. simpl. rewrite Hs. simpl.
    repeat split; try assumption. exists []. now rewrite app_nil_r.
Qed.

Create HintDb window discriminated.

Hint Resolve quiet_ret quiet_raise quiet_get quiet_logger
  inert_get_player_list inert_get_player_count inert_send_command
  inert_save_all inert_reload_server inert_get_seed inert_stop_server
  inert_broadcast_message inert_kick_player inert_ban_player
  inert_tell_player : window.

Ltac quiet_step :=
  match goal with
  | |- quiet (bind _ _) => apply quiet_bind; [| intros ?]
  | |- quiet (try_except _ _) => apply quiet_try_except; [| intros ?]
  | |- quiet (on_service _ _) => apply quiet_on_service; auto with window
  | |- quiet (modify _) =>
      apply quiet_modify; intros []; split; reflexivity
  | |- quiet (messagebox _) =>
      apply quiet_modify; intros []; split; reflexivity
  | |- quiet not_connected_warning =>
      apply quiet_modify; intros []; split; reflexivity
  | |- quiet (if ?b then _ else _) => destruct b
  | |- quiet (match ?x with _ => _ end) => destruct x
  | |- quiet _ => solve [auto with window]
  end.

Lemma quiet_log_to_console (message : string) :
  quiet (log_to_console strftime message).
Proof. unfold log_to_console. repeat quiet_step. Qed.

Lemma quiet_update_status (status : string) : quiet (update_status status).
Proof. unfold update_status. repeat quiet_step. Qed.

Hint Resolve quiet_log_to_console quiet_update_status : window.

Lemma quiet_refresh_player_list : quiet (refresh_player_list).
Proof. unfold refresh_player_list. repeat quiet_step. Qed.

Hint Resolve quiet_refresh_player_list : window.

(** *** Methods that never raise *)

Lemma returns_ret {A} (a : A) : never_raises (@ret MinecraftRCONGUI A a).
Proof. intros lib st. reflexivity. Qed.

Lemma returns_get : never_raises (@get MinecraftRCONGUI).
Proof. intros lib st. reflexivity. Qed.

Lemma returns_modify (f : MinecraftRCONGUI -> MinecraftRCONGUI) :
  never_raises (modify f).
Proof. intros lib st. reflexivity. Qed.

Lemma returns_logger (lvl : Level) (msg : string) :
  never_raises (@logger MinecraftRCONGUI lvl msg).
Proof. intros lib st. reflexivity. Qed.

Lemma returns_bind {A B} (m : Method A) (k : A -> Method B) :
  never_raises m -> (forall a, never_raises (k a)) -> never_raises (bind m k).
Proof.
  intros Hm Hk lib st. unfold bind. specialize (Hm lib st).
  destruct (m lib st) as [[a|e] st1]; simpl in *; [apply Hk | discriminate].
Qed.

Lemma returns_try_except {A} (body : Method A) (handler : Exn -> Method A) :
  (forall e, never_raises (handler e)) -> never_raises (try_except body handler).
Proof.
  intros Hk lib st. unfold try_except.
  destruct (body lib st) as [[a|e] st1]; simpl; [reflexivity | apply Hk].
Qed.

Hint Resolve returns_ret returns_get returns_modify returns_logger : window.

Ltac returns_step :=
  match goal with
  | |- never_raises (bind _ _) => apply returns_bind; [| intros ?]
  | |- never_raises (try_except _ _) => apply returns_try_except; intros ?
  | |- never_raises (messagebox _) => apply returns_modify
  | |- never_raises not_connected_warning => apply returns_modify
  | |- never_raises (if ?b then _ else _) => destruct b
  | |- never_raises (match ?x with _ => _ end) => destruct x
  | |- never_raises _ => solve [auto with window]
  end.

Lemma returns_log_to_console (message : string) :
  never_raises (log_to_console strftime message).
Proof. unfold log_to_console. repeat returns_step. Qed.

Lemma returns_update_status (status : string) :
  never_raises (update_status status).
Proof. unfold update_status. repeat returns_step. Qed.

Hint Resolve returns_log_to_console returns_update_status : window.

Lemma returns_refresh_player_list : never_raises refresh_player_list.
Proof. unfold refresh_player_list. repeat returns_step. Qed.

Lemma returns_disconnect_server : never_raises (disconnect_server strftime).
Proof. unfold disconnect_server. repeat returns_step. Qed.

Hint Resolve returns_refresh_player_list returns_disconnect_server : window.

Lemma returns_connect_to_server : never_raises (connect_to_server strftime).
Proof. unfold connect_to_server. repeat returns_step. Qed.

Hint Resolve returns_connect_to_server : window.

(** X12: every handler of the main window that guards its uses of the
    service with [try] returns, whatever the library does: connecting,
    disconnecting, the command line, the quick commands, saving, reloading,
    the seed, stopping, the refresh, the broadcast and closing never raise
    into the event loop. *)
Theorem X12_guarded_handlers_never_raise (a : Action) :
  match a with
  | KickPlayerDialog _ | BanPlayerDialog _ | MessagePlayerDialog _ => True
  | _ =>
      forall lib st,
        fst (handle strftime str_strip str_lower a lib st) = Ok tt
  end.
Proof.
  assert (H : forall (m : Method unit),
             never_raises m -> forall lib st, fst (m lib st) = Ok tt).
  { intros m Hm lib st. specialize (Hm lib st).
    destruct (fst (m lib st)) as [[]|]; [reflexivity | discriminate]. }
  destruct a; try exact I; apply H; simpl handle;
    unfold show_connection_dialog, execute_command, execute_quick_command,
      save_all, reload_server, get_seed, stop_server_confirm,
      broadcast_message_dialog, toggle_auto_refresh, on_closing;
    repeat returns_step.
Qed.

(** *** The window and its service stay consistent *)

Ltac window_unfold :=
  cbv beta iota zeta delta
   [bind try_except get modify ret raise logger messagebox
    not_connected_warning log_to_console update_status fst snd trace log
    negb rcon_service connected server_host server_port server_password
    auto_refresh connection_info players_label players_textbox
    console_text command_entry status_label dialogs set_rcon_service
    set_connected set_server_host set_server_port set_server_password
    set_auto_refresh set_connection_info set_players_label
    set_players_textbox set_console_text set_command_entry
    set_status_label set_dialogs].

Lemma quiet_consistent {A} (m : Method A) :
  quiet m -> hoare consistent m (fun _ st => consistent st).
Proof.
  intros Hm lib st H. destruct (Hm lib st) as (Hs & Hc & calls & Ht).
  unfold consistent in *. rewrite Hs, Hc.
  destruct (rcon_service (fst st)) as [service|]; [| assumption].
  destruct H as [Hw Hi]. split; [| assumption].
  unfold rcon_service.well_formed in *. simpl in *. rewrite Ht.
  destruct (rcon_service.client service); [| assumption].
  rewrite length_app. lia.
Qed.

Lemma hoare_bind {A B} P (Q1 : Result A -> _ -> Prop) (Q : Result B -> _ -> Prop)
  (m : Method A) (k : A -> Method B) :
  hoare P m Q1 ->
  (forall a, hoare (Q1 (Ok a)) (k a) Q) ->
  (forall e st, Q1 (Raise e) st -> Q (Raise e) st) ->
  hoare P (bind m k) Q.
Proof.
  intros Hm Hk He lib st HP. unfold bind. specialize (Hm lib st HP).
  destruct (m lib st) as [[a|e] st1]; simpl in *.
  - now apply Hk.
  - now apply He.
Qed.

Lemma hoare_try_except {A} P (Q1 Q : Result A -> _ -> Prop)
  (body : Method A) (handler : Exn -> Method A) :
  hoare P body Q1 ->
  (forall e, hoare (Q1 (Raise e)) (handler e) Q) ->
  (forall a st, Q1 (Ok a) st -> Q (Ok a) st) ->
  hoare P (try_except body handler) Q.
Proof.
  intros Hm Hk Ha lib st HP. unfold try_except. specialize (Hm lib st HP).
  destruct (body lib st) as [[a|e] st1]; simpl in *.
  - now apply Ha.
  - now apply Hk.
Qed.

Lemma hoare_weaken {A} (P P' : _ -> Prop) (Q Q' : Result A -> _ -> Prop)
  (m : Method A) :
  hoare P' m Q' ->
  (forall st, P st -> P' st) ->
  (forall r st, Q' r st -> Q r st) ->
  hoare P m Q.
Proof. intros Hm HP HQ lib st H. apply HQ, Hm, HP, H. Qed.

Lemma disconnect_server_run lib self w :
  disconnect_server strftime lib (self, w)
  = (Ok tt,
     (mkGUI None false (server_host self) (server_port self)
        (server_password self) (auto_refresh self) "Not Connected"
        "Players Online: 0/0" EmptyString
        (console_text self
           ++ ["[" ++ strftime (List.length (console_text self)) ++ "] "
                 ++ "Disconnected from server" ++ nl])
        (command_entry self) "Disconnected" (dialogs self),
      match rcon_service self with
      | Some service => snd (snd (rcon_service.disconnect lib (service, w)))
      | None => w
      end)).
Proof.
  destruct self as [[service|] c h p pw ar ci pl pt ct ce sl ds];
    unfold disconnect_server, on_service; window_unfold; [| reflexivity].
  destruct (rcon_service.disconnect lib (service, w)) as [[[]|e] [service' w']];
    reflexivity.
Qed.

Lemma disconnect_server_consistent P :
  hoare P (disconnect_server strftime)
    (fun _ st => consistent st /\ connected (fst st) = false).
Proof.
  intros lib [self w] _. rewrite disconnect_server_run.
  split; reflexivity.
Qed.

Lemma connect_well_formed lib st :
  rcon_service.well_formed st ->
  rcon_service.well_formed (snd (rcon_service.connect lib st)).
Proof.
  intros H.
  pose proof (perform_well_formed str_lower lib rcon_service.Connect st H)
    as H'.
  simpl rcon_service.perform in H'. now rewrite answer_snd in H'.
Qed.

Lemma on_service_connect_consistent :
  hoare (fun st => consistent st /\ connected (fst st) = false
                   /\ rcon_service (fst st) <> None)
    (on_service "connect" rcon_service.connect)
    (fun r st =>
       match r with
       | Ok _ =>
           exists service,
             rcon_service (fst st) = Some service
             /\ rcon_service.well_formed (service, snd st)
             /\ rcon_service.is_connected service = true
       | Raise _ => consistent st
       end).
Proof.
  intros lib [self w] (H & Hc & Hs). unfold consistent in H. simpl in *.
  unfold on_service. simpl.
  destruct (rcon_service self) as [service|] eqn:E; [| congruence].
  destruct H as [Hw _].
  pose proof (connect_well_formed lib (service, w) Hw) as Hw'.
  pose proof (connect_is_connected lib (service, w)) as Hi.
  destruct (rcon_service.connect lib (service, w)) as [[b|e] [service' w']];
    simpl in *.
  - exists service'. destruct self; simpl. repeat split; assumption.
  - unfold consistent. destruct self; simpl in *.
    split; [assumption |]. intros; congruence.
Qed.

Lemma connect_to_server_consistent :
  hoare consistent (connect_to_server strftime) (fun _ st => consistent st).
Proof.
  unfold connect_to_server.
  eapply hoare_bind with (Q1 := fun r st => consistent st /\ r = Ok (fst st)).
  { intros lib st H. simpl. split; [assumption | reflexivity]. }
  2: { intros e st [_ H]. discriminate H. }
  intros self.
  eapply hoare_bind
    with (Q1 := fun _ st => consistent st /\ connected (fst st) = false).
  { destruct (connected self) eqn:Hc.
    - apply disconnect_server_consistent.
    - intros lib st [H E]. simpl. injection E as ->. split; assumption. }
  2: { intros e st [H _]. exact H. }
  intros ?.
  eapply hoare_try_except with (Q1 := fun _ st => consistent st).
  3: { intros r0 st H. exact H. }
  2: { intros e. apply quiet_consistent. repeat quiet_step. }
  eapply hoare_bind
    with (Q1 := fun _ st => consistent st /\ connected (fst st) = false).
  { intros lib st H. exact H. }
  2: { intros e st [H _]. exact H. }
  intros self'.
  eapply hoare_bind
    with (Q1 := fun _ st => consistent st /\ connected (fst st) = false
                            /\ rcon_service (fst st) <> None).
  { intros lib [g w] [H Hc]. simpl in *. destruct g; simpl in *.
    unfold consistent. simpl. repeat split; try assumption; try discriminate.
    intros; congruence. }
  2: { intros e st [H _]. exact H. }
  intros ?.
  eapply hoare_bind; [apply on_service_connect_consistent | |].
  2: { intros e st H. exact H. }
  intros ?.
  eapply hoare_bind with (Q1 := fun _ st => consistent st).
  { intros lib [g w] (service & Hs & Hw & Hi). simpl in *.
    destruct g; simpl in *. unfold consistent. simpl. rewrite Hs.
    split; [assumption | intros _; assumption]. }
  2: { intros e st H. exact H. }
  intros ?. apply quiet_consistent. repeat quiet_step.
Qed.

Lemma handle_consistent (a : Action) :
  hoare consistent (handle strftime str_strip str_lower a)
    (fun _ st => consistent st).
Proof.
  destruct a; simpl handle.
  - (* show_connection_dialog *)
    unfold show_connection_dialog.
    destruct result as [[[host port] password]|];
      [| apply quiet_consistent; repeat quiet_step].
    do 3 (eapply hoare_bind with (Q1 := fun _ st => consistent st);
            [apply quiet_consistent; repeat quiet_step
            | intros ? | intros e st H; exact H]).
    apply connect_to_server_consistent.
  - apply connect_to_server_consistent.
  - eapply hoare_weaken; [apply (disconnect_server_consistent consistent) | |];
      [auto | intros r st [H _]; exact H].
  - apply quiet_consistent; repeat quiet_step.
  - apply quiet_consistent; unfold execute_command; repeat quiet_step.
  - apply quiet_consistent; unfold execute_quick_command; repeat quiet_step.
  - apply quiet_consistent; unfold save_all; repeat quiet_step.
  - apply quiet_consistent; unfold reload_server; repeat quiet_step.
  - apply quiet_consistent; unfold get_seed; repeat quiet_step.
  - (* stop_server_confirm *)
    unfold stop_server_confirm.
    eapply hoare_bind with (Q1 := fun _ st => consistent st);
      [apply quiet_consistent; repeat quiet_step | | intros e st H; exact H].
    intros self. destruct (negb (connected self));
      [apply quiet_consistent; repeat quiet_step |].
    eapply hoare_bind with (Q1 := fun _ st => consistent st);
      [apply quiet_consistent; repeat quiet_step | | intros e st H; exact H].
    intros ?. destruct yes; [| apply quiet_consistent; repeat quiet_step].
    eapply hoare_try_except with (Q1 := fun _ st => consistent st);
      [| intros e; apply quiet_consistent; repeat quiet_step
       | intros r0 st H; exact H].
    do 3 (eapply hoare_bind with (Q1 := fun _ st => consistent st);
            [apply quiet_consistent; repeat quiet_step
            | intros ? | intros e st H; exact H]).
    eapply hoare_weaken; [apply (disconnect_server_consistent consistent) | |];
      [auto | intros r st [H _]; exact H].
  - apply quiet_consistent; repeat quiet_step.
  - apply quiet_consistent; unfold broadcast_message_dialog;
      repeat quiet_step.
  - apply quiet_consistent; unfold kick_player_dialog; repeat quiet_step.
  - apply quiet_consistent; unfold ban_player_dialog; repeat quiet_step.
  - apply quiet_consistent; unfold message_player_dialog; repeat quiet_step.
  - apply quiet_consistent; unfold toggle_auto_refresh; repeat quiet_step.
  - (* on_closing *)
    unfold on_closing.
    eapply hoare_bind with (Q1 := fun _ st => consistent st);
      [apply quiet_consistent; repeat quiet_step | | intros e st H; exact H].
    intros self. destruct (connected self);
      [| apply quiet_consistent; repeat quiet_step].
    eapply hoare_weaken; [apply (disconnect_server_consistent consistent) | |];
      [auto | intros r st [H _]; exact H].
Qed.

Lemma after_consistent lib (actions : list Action) :
  forall st,
    consistent st ->
    consistent (after strftime str_strip str_lower lib actions st).
Proof.
  induction actions as [|a actions IH]; intros st H; simpl; [exact H|].
  apply IH. now apply handle_consistent.
Qed.

(** X13: after any sequence of actions on a new window, a window that
    says connected holds a service, that service is connected and its
    client exists: no handler can meet the error of the guard or a missing
    service while the window says connected. *)
Theorem X13_connected_window_holds_a_connected_service
  (lib : Library) (actions : list Action) :
  let st := after strftime str_strip str_lower lib actions
              (__init__, world0) in
  connected (fst st) = true ->
  exists service c,
    rcon_service (fst st) = Some service
    /\ rcon_service.is_connected service = true
    /\ rcon_service.client service = Some c
    /\ (c < List.length (trace (snd st)))%nat.
Proof.
  intros st Hc.
  assert (H : consistent st) by (apply after_consistent; reflexivity).
  unfold consistent in H.
  destruct (rcon_service (fst st)) as [service|]; [| congruence].
  destruct H as [Hw Hi]. specialize (Hi Hc).
  unfold rcon_service.well_formed in Hw. simpl in Hw.
  unfold rcon_service.is_connected in Hi.
  destruct (rcon_service.client service) as [c|] eqn:E.
  - exists service, c. unfold rcon_service.is_connected. rewrite E.
    repeat split; assumption.
  - rewrite andb_false_r in Hi. discriminate.
Qed.

(** *** What the handlers do *)

Lemma get_player_list_run :
  rcon_service.delegates_to_list rcon_service.get_player_list players.
Proof. exact (guarded_list_delegates players). Qed.

Lemma get_player_count_run :
  rcon_service.delegates_to_list rcon_service.get_player_count
    (fun r => (Z.of_nat (List.length (players r)), max r)).
Proof.
  exact (guarded_list_delegates
           (fun r => (Z.of_nat (List.length (players r)), max r))).
Qed.

Lemma kick_player_run (player reason : string) :
  rcon_service.delegates_to_client (rcon_service.kick_player player reason)
    "kick" [AStr player; AStr reason].
Proof. exact (guarded_call_delegates _ _). Qed.

(** X14: on a window that does not say connected, the handlers that need
    the service only show the warning [Not Connected]; they do not touch the
    service or the library.  The command line does nothing at all when the
    entry is empty once stripped, and the refresh and closing do nothing. *)
Theorem X14_handlers_warn_when_not_connected
  (a : Action) (lib : Library) (self : MinecraftRCONGUI) (w : World) :
  connected self = false ->
  let warned :=
    (Ok tt,
     (set_dialogs
        (dialogs self
           ++ [showwarning "Not Connected"
                 "Please connect to a server first."]) self, w)) in
  match a with
  | ExecuteQuickCommand _ | SaveAll | ReloadServer | GetSeed
  | StopServerConfirm _ | BroadcastMessageDialog _ | KickPlayerDialog _
  | BanPlayerDialog _ | MessagePlayerDialog _ =>
      handle strftime str_strip str_lower a lib (self, w) = warned
  | ExecuteCommand =>
      handle strftime str_strip str_lower a lib (self, w)
      = if String.eqb (str_strip (command_entry self)) EmptyString
        then (Ok tt, (self, w)) else warned
  | RefreshPlayerList | OnClosing =>
      handle strftime str_strip str_lower a lib (self, w) = (Ok tt, (self, w))
  | _ => True
  end.
Proof.
  destruct self as [s c h p pw ar ci pl pt ct ce sl ds]. simpl.
  intros ->. destruct a; try exact I; try reflexivity.
  unfold handle, execute_command. window_unfold.
  destruct (String.eqb (str_strip ce) EmptyString); reflexivity.
Qed.

(** X15: [disconnect_server] returns and resets the window whatever the
    service does: the service is dropped, the flag cleared, the labels and
    the player list reset, one line written to the console.  The library is
    used only for the [close] of a connected service's client; when that
    [close] raises, the window drops the service all the same. *)
Theorem X15_disconnect_server_always_resets
  (lib : Library) (self : MinecraftRCONGUI) (w : World) :
  let out := disconnect_server strftime lib (self, w) in
  fst out = Ok tt
  /\ fst (snd out)
     = mkGUI None false (server_host self) (server_port self)
         (server_password self) (auto_refresh self) "Not Connected"
         "Players Online: 0/0" EmptyString
         (console_text self
            ++ ["[" ++ strftime (List.length (console_text self)) ++ "] "
                  ++ "Disconnected from server" ++ nl])
         (command_entry self) "Disconnected" (dialogs self)
  /\ trace (snd (snd out))
     = match rcon_service self with
       | Some service =>
           match rcon_service.client service with
           | Some c =>
               if rcon_service._connected service
               then (trace w ++ [CallMethod c "close" []])%list
               else trace w
           | None => trace w
           end
       | None => trace w
       end.
Proof.
  simpl. rewrite disconnect_server_run. simpl.
  repeat split.
  destruct (rcon_service self) as [service|]; [| reflexivity].
  rewrite disconnect_run.
  destruct (rcon_service.client service), (rcon_service._connected service);
    try reflexivity.
  destruct (lib_proc lib (List.length (trace w))); reflexivity.
Qed.

Lemma refresh_player_list_run lib self w service c :
  rcon_service self = Some service ->
  connected self = true ->
  rcon_service.client service = Some c ->
  rcon_service._connected service = true ->
  let n := List.length (trace w) in
  let once := (trace w ++ [CallMethod c "list" []])%list in
  let twice := (once ++ [CallMethod c "list" []])%list in
  refresh_player_list lib (self, w)
  = match lib_players lib n with
    | Raise e =>
        (Ok tt,
         (self,
          mkWorld once
            (log w ++ [mkLog ERROR
                         ("Failed to refresh player list: " ++ exn_str e)])))
    | Ok r1 =>
        match lib_players lib (S n) with
        | Raise e =>
            (Ok tt,
             (self,
              mkWorld twice
                (log w ++ [mkLog ERROR
                             ("Failed to refresh player list: "
                                ++ exn_str e)])))
        | Ok r2 =>
            (Ok tt,
             (set_players_textbox
                match players r1 with
                | [] => "No players online"
                | _ :: _ =>
                    fold_left (fun text player => text ++ player ++ nl)
                      (players r1) EmptyString
                end
                (set_players_label
                   ("Players Online: "
                      ++ str_int (Z.of_nat (List.length (players r2)))
                      ++ "/" ++ str_int (max r2)) self),
              mkWorld twice (log w)))
        end
    end.
Proof.
  intros Hs Hc Hcl Hco n once twice. subst n once twice.
  unfold refresh_player_list, bind at 1, get. cbn [fst snd]. rewrite Hc.
  cbn [negb]. unfold try_except, bind at 1.
  rewrite (on_service_inert _ _ lib self w service inert_get_player_list Hs).
  rewrite (get_player_list_run lib service w), Hcl, Hco. cbn [fst snd].
  destruct (lib_players lib (List.length (trace w))) as [r1|e];
    [| destruct self; reflexivity].
  unfold bind at 1.
  rewrite (on_service_inert _ _ lib self _ service inert_get_player_count Hs).
  rewrite (get_player_count_run lib service), Hcl, Hco. cbn [fst snd trace].
  rewrite length_app. cbn [List.length]. rewrite Nat.add_1_r.
  destruct (lib_players lib (S (List.length (trace w)))) as [r2|e];
    [| destruct self; reflexivity].
  destruct self, (players r1); reflexivity.
Qed.

(** X16: on a window that is connected to a connected service,
    [refresh_player_list] asks the library for the list twice.  The names
    shown come from the first reply and the count from the second; when
    either call raises, the window is left as it was and one error is
    logged; in no case does the refresh raise. *)
Theorem X16_refresh_player_list_two_replies
  (lib : Library) (self : MinecraftRCONGUI) (w : World)
  (service : rcon_service.RCONService) (c : Client) :
  rcon_service self = Some service ->
  connected self = true ->
  rcon_service.client service = Some c ->
  rcon_service._connected service = true ->
  let n := List.length (trace w) in
  let once := (trace w ++ [CallMethod c "list" []])%list in
  let twice := (once ++ [CallMethod c "list" []])%list in
  refresh_player_list lib (self, w)
  = match lib_players lib n with
    | Raise e =>
        (Ok tt,
         (self,
          mkWorld once
            (log w ++ [mkLog ERROR
                         ("Failed to refresh player list: " ++ exn_str e)])))
    | Ok r1 =>
        match lib_players lib (S n) with
        | Raise e =>
            (Ok tt,
             (self,
              mkWorld twice
                (log w ++ [mkLog ERROR
                             ("Failed to refresh player list: "
                                ++ exn_str e)])))
        | Ok r2 =>
            (Ok tt,
             (set_players_textbox
                match players r1 with
                | [] => "No players online"
                | _ :: _ =>
                    fold_left (fun text player => text ++ player ++ nl)
                      (players r1) EmptyString
                end
                (set_players_label
                   ("Players Online: "
                      ++ str_int (Z.of_nat (List.length (players r2)))
                      ++ "/" ++ str_int (max r2)) self),
              mkWorld twice (log w)))
        end
    end.
Proof. exact (refresh_player_list_run lib self w service c). Qed.

Lemma refresh_only_players lib st :
  exists label text,
    fst (snd (refresh_player_list lib st))
    = set_players_textbox text (set_players_label label (fst st)).
Proof.
  destruct st as [self w].
  assert (Hsame : self = set_players_textbox (players_textbox self)
                           (set_players_label (players_label self) self))
    by (destruct self; reflexivity).
  unfold refresh_player_list, bind at 1, get. cbn [fst snd].
  destruct (connected self); cbn [negb];
    [| exists (players_label self), (players_textbox self); exact Hsame].
  unfold try_except, bind at 1.
  destruct (rcon_service self) as [service|] eqn:Hs.
  - rewrite (on_service_inert _ _ lib self w service inert_get_player_list Hs).
    destruct (fst (rcon_service.get_player_list lib (service, w)))
      as [names|e];
      [| exists (players_label self), (players_textbox self); exact Hsame].
    unfold bind at 1.
    rewrite (on_service_inert _ _ lib self _ service inert_get_player_count
               Hs).
    destruct (fst (rcon_service.get_player_count lib _)) as [counts|e];
      [| exists (players_label self), (players_textbox self); exact Hsame].
    destruct names; eexists _, _; destruct self; reflexivity.
  - unfold on_service. cbn [fst snd]. rewrite Hs.
    exists (players_label self), (players_textbox self). exact Hsame.
Qed.

Lemma connect_to_server_run lib self w :
  connected self = false ->
  connect_to_server strftime lib (self, w)
  = match
      rcon_service.connect lib
        (rcon_service.__init__ (server_host self) (server_port self)
           (server_password self), w)
    with
    | (Ok _, (service', w')) =>
        refresh_player_list lib
          (set_status_label "Connected"
             (set_console_text
                (console_text self
                   ++ ["[" ++ strftime (List.length (console_text self))
                         ++ "] "
                         ++ ("Connected to "
                               ++ (server_host self ++ " on port "
                                     ++ str_int (server_port self)))
                         ++ nl])
                (set_connection_info
                   (server_host self ++ " on port "
                      ++ str_int (server_port self))
                   (set_connected true
                      (set_rcon_service (Some service') self)))), w')
    | (Raise e, (service', w')) =>
        (Ok tt,
         (set_dialogs
            (dialogs self
               ++ [showerror "Connection Error"
                     ("Failed to connect to server:" ++ nl ++ exn_str e)])
            (set_status_label "Connection failed"
               (set_console_text
                  (console_text self
                     ++ ["[" ++ strftime (List.length (console_text self))
                           ++ "] " ++ ("Failed to connect: " ++ exn_str e)
                           ++ nl])
                  (set_rcon_service (Some service') self))), w'))
    end.
Proof.
  destruct self as [s c h p pw ar ci pl pt ct ce sl ds]. simpl. intros ->.
  unfold connect_to_server, on_service. window_unfold.
  destruct (rcon_service.connect lib (rcon_service.__init__ h p pw, w))
    as [[b|e] [service' w']]; [| reflexivity].
  match goal with
  | |- context [refresh_player_list lib ?st] =>
      pose proof (returns_refresh_player_list lib st) as Hr;
      destruct (refresh_player_list lib st) as [[[]|e] st']
  end; [reflexivity | discriminate Hr].
Qed.

(** X17: [connect_to_server] on a window that says connected is
    [disconnect_server] followed by [connect_to_server].  On a window that
    does not, it makes a new service from the host, port and password of
    the window and connects it; the window says connected afterwards
    exactly when that [connect] returned, and holds the new service either
    way.  When [connect] raises, the console, the status bar and an error
    box show the text of the exception and nothing else changes. *)
Theorem X17_connect_to_server_follows_the_service
  (lib : Library) (self : MinecraftRCONGUI) (w : World) :
  (connected self = true ->
   connect_to_server strftime lib (self, w)
   = connect_to_server strftime lib
       (snd (disconnect_server strftime lib (self, w))))
  /\
  (connected self = false ->
   let fresh :=
     rcon_service.__init__ (server_host self) (server_port self)
       (server_password self) in
   let out := rcon_service.connect lib (fresh, w) in
   let st' := snd (connect_to_server strftime lib (self, w)) in
   connected (fst st') = is_ok (fst out)
   /\ rcon_service (fst st') = Some (fst (snd out))
   /\ match fst out with
      | Ok _ =>
          connection_info (fst st')
          = server_host self ++ " on port " ++ str_int (server_port self)
          /\ status_label (fst st') = "Connected"
      | Raise e =>
          st'
          = (set_dialogs
               (dialogs self
                  ++ [showerror "Connection Error"
                        ("Failed to connect to server:" ++ nl ++ exn_str e)])
               (set_status_label "Connection failed"
                  (set_console_text
                     (console_text self
                        ++ ["[" ++ strftime (List.length (console_text self))
                              ++ "] " ++ ("Failed to connect: " ++ exn_str e)
                              ++ nl])
                     (set_rcon_service (Some (fst (snd out))) self))),
             snd (snd out))
      end).
Proof.
  split.
  - intros Hc. unfold connect_to_server at 1, bind at 1 2, get.
    cbn [fst snd]. rewrite Hc, disconnect_server_run. cbn [fst snd].
    unfold connect_to_server, bind at 1 2, get, ret. reflexivity.
  - intros Hc fresh out st'. subst st' out fresh.
    rewrite (connect_to_server_run lib self w Hc).
    destruct (rcon_service.connect lib _) as [[b|e] [service' w']];
      cbn [fst snd is_ok].
    + match goal with
      | |- context [refresh_player_list lib ?st] =>
          destruct (refresh_only_players lib st) as (label & text & Hr);
          rewrite Hr
      end.
      destruct self; simpl in *. repeat split.
    + destruct self; simpl in *. subst. repeat split.
Qed.

Lemma save_all_run (flush : bool) :
  rcon_service.wraps_send_command (rcon_service.save_all flush)
    (if flush then "save-all flush" else "save-all").
Proof. destruct flush; exact (guarded_send_command_wraps _). Qed.

(** X18: on a window connected to a connected service, a quick command
    reaches the client's [run] once, as it is; the console then shows the
    command and the response, or only the failure when [run] raises, and
    the window is otherwise unchanged and stays connected. *)
Theorem X18_quick_command_reaches_the_server
  (lib : Library) (self : MinecraftRCONGUI) (w : World)
  (service : rcon_service.RCONService) (c : Client) (command : string) :
  rcon_service self = Some service ->
  connected self = true ->
  rcon_service.client service = Some c ->
  rcon_service._connected service = true ->
  let k := List.length (console_text self) in
  let reply := lib_text lib (List.length (trace w)) in
  execute_quick_command strftime command lib (self, w)
  = (Ok tt,
     (set_console_text
        (console_text self
           ++ match reply with
              | Ok response =>
                  ["[" ++ strftime k ++ "] " ++ ("> " ++ command) ++ nl;
                   "[" ++ strftime (S k) ++ "] " ++ ("< " ++ response) ++ nl]
              | Raise e =>
                  ["[" ++ strftime k ++ "] "
                     ++ ("Command failed: " ++ exn_str e) ++ nl]
              end) self,
      mkWorld (trace w ++ [CallMethod c "run" [AStr command]])
        (log w
           ++ [match reply with
               | Ok response =>
                   mkLog DEBUG
                     ("Command: " ++ command ++ " | Response: " ++ response)
               | Raise e =>
                   mkLog ERROR ("Command execution failed: " ++ exn_str e)
               end]))).
Proof.
  intros Hs Hc Hcl Hco k reply. subst k reply.
  unfold execute_quick_command, bind at 1, get. cbn [fst snd]. rewrite Hc.
  cbn [negb]. unfold try_except, bind at 1.
  rewrite (on_service_inert _ _ lib self w service
             (inert_send_command command) Hs).
  rewrite (send_command_run command lib service w), Hcl, Hco. cbn [fst snd].
  destruct (lib_text lib (List.length (trace w))) as [response|e];
    destruct self; window_unfold; rewrite ?length_app; simpl List.length;
    rewrite ?Nat.add_1_r, <- ?app_assoc; reflexivity.
Qed.

(** X19: on a window connected to a connected service, [save_all] sends
    the command [save-all flush], while the console shows [> save-all]. *)
Theorem X19_save_all_sends_flush
  (lib : Library) (self : MinecraftRCONGUI) (w : World)
  (service : rcon_service.RCONService) (c : Client) :
  rcon_service self = Some service ->
  connected self = true ->
  rcon_service.client service = Some c ->
  rcon_service._connected service = true ->
  let k := List.length (console_text self) in
  let reply := lib_text lib (List.length (trace w)) in
  save_all strftime lib (self, w)
  = (Ok tt,
     (set_console_text
        (console_text self
           ++ match reply with
              | Ok response =>
                  ["[" ++ strftime k ++ "] " ++ "> save-all" ++ nl;
                   "[" ++ strftime (S k) ++ "] " ++ ("< " ++ response) ++ nl]
              | Raise e =>
                  ["[" ++ strftime k ++ "] "
                     ++ ("Save failed: " ++ exn_str e) ++ nl]
              end) self,
      mkWorld (trace w ++ [CallMethod c "run" [AStr "save-all flush"]])
        (log w
           ++ [match reply with
               | Ok response =>
                   mkLog DEBUG
                     ("Command: " ++ "save-all flush" ++ " | Response: "
                        ++ response)
               | Raise e =>
                   mkLog ERROR ("Command execution failed: " ++ exn_str e)
               end]))).
Proof.
  intros Hs Hc Hcl Hco k reply. subst k reply.
  unfold save_all, bind at 1, get. cbn [fst snd]. rewrite Hc.
  cbn [negb]. unfold try_except, bind at 1.
  rewrite (on_service_inert _ _ lib self w service (inert_save_all true) Hs).
  rewrite (save_all_run true lib (service, w)).
  rewrite (send_command_run _ lib service w), Hcl, Hco. cbn [fst snd].
  destruct (lib_text lib (List.length (trace w))) as [response|e];
    destruct self; window_unfold; rewrite ?length_app; simpl List.length;
    rewrite ?Nat.add_1_r, <- ?app_assoc; reflexivity.
Qed.

Lemma players_dialog_prefix {A} (k : list string -> Method A)
  lib self w service c :
  rcon_service self = Some service ->
  rcon_service.client service = Some c ->
  rcon_service._connected service = true ->
  (players <- on_service "get_player_list" rcon_service.get_player_list ;;
   k players) lib (self, w)
  = match lib_players lib (List.length (trace w)) with
    | Ok r =>
        k (players r) lib
          (self, mkWorld (trace w ++ [CallMethod c "list" []]) (log w))
    | Raise e =>
        (Raise e,
         (self, mkWorld (trace w ++ [CallMethod c "list" []]) (log w)))
    end.
Proof.
  intros Hs Hcl Hco. unfold bind at 1.
  rewrite (on_service_inert _ _ lib self w service inert_get_player_list Hs).
  rewrite (get_player_list_run lib service w), Hcl, Hco. cbn [fst snd].
  destruct (lib_players lib (List.length (trace w))); reflexivity.
Qed.

(** X20: the kick, ban and message dialogs fetch the list of players
    outside any [try]: on a connected window, when the library's [list]
    raises, the handler raises that exception into the event loop and shows
    nothing; when the list is empty, it shows [No Players] and sends
    nothing more, whatever the dialog holds. *)
Theorem X20_player_dialogs_list_unguarded
  (lib : Library) (self : MinecraftRCONGUI) (w : World)
  (service : rcon_service.RCONService) (c : Client)
  (result : option (string * string)) :
  rcon_service self = Some service ->
  connected self = true ->
  rcon_service.client service = Some c ->
  rcon_service._connected service = true ->
  let w' := mkWorld (trace w ++ [CallMethod c "list" []]) (log w) in
  let expected :=
    match lib_players lib (List.length (trace w)) with
    | Raise e => Some (Raise e, (self, w'))
    | Ok r =>
        match players r with
        | [] =>
            Some
              (Ok tt,
               (set_dialogs
                  (dialogs self
                     ++ [showinfo "No Players"
                           "No players are currently online."]) self, w'))
        | _ :: _ => None
        end
    end in
  forall out,
    expected = Some out ->
    kick_player_dialog strftime result lib (self, w) = out
    /\ ban_player_dialog strftime result lib (self, w) = out
    /\ message_player_dialog strftime result lib (self, w) = out.
Proof.
  intros Hs Hc Hcl Hco w' expected out H. subst expected w'.
  split; [| split];
    [ unfold kick_player_dialog | unfold ban_player_dialog
    | unfold message_player_dialog ];
    unfold bind at 1, get; cbn [fst snd]; rewrite Hc; cbn [negb];
    rewrite (players_dialog_prefix _ lib self w service c Hs Hcl Hco);
    (destruct (lib_players lib (List.length (trace w))) as [r|e];
     [ destruct (players r); [| discriminate H];
       injection H as <-; destruct self; reflexivity
     | injection H as <-; reflexivity ]).
Qed.

Lemma stop_server_run :
  rcon_service.delegates_to_client rcon_service.stop_server "stop" [].
Proof. exact (guarded_call_delegates _ _). Qed.

(** X21: on a window connected to a connected service,
    [stop_server_confirm] asks first.  On a no it does nothing more.  On a
    yes it calls the client's [stop] once; when that returns, the console
    shows the exchange and the window goes through [disconnect_server];
    when it raises, the console shows the failure and the window stays
    connected. *)
Theorem X21_stop_server_confirm_disconnects_after_stop
  (lib : Library) (self : MinecraftRCONGUI) (w : World)
  (service : rcon_service.RCONService) (c : Client) (yes : bool) :
  rcon_service self = Some service ->
  connected self = true ->
  rcon_service.client service = Some c ->
  rcon_service._connected service = true ->
  let k := List.length (console_text self) in
  let asked :=
    set_dialogs
      (dialogs self
         ++ [askyesno "Confirm" "Are you sure you want to stop the server?"])
      self in
  let w' := mkWorld (trace w ++ [CallMethod c "stop" []]) (log w) in
  stop_server_confirm strftime yes lib (self, w)
  = if yes then
      match lib_text lib (List.length (trace w)) with
      | Ok response =>
          disconnect_server strftime lib
            (set_console_text
               (console_text self
                  ++ ["[" ++ strftime k ++ "] " ++ "> stop" ++ nl;
                      "[" ++ strftime (S k) ++ "] " ++ ("< " ++ response)
                        ++ nl]) asked, w')
      | Raise e =>
          (Ok tt,
           (set_console_text
              (console_text self
                 ++ ["[" ++ strftime k ++ "] "
                       ++ ("Stop command failed: " ++ exn_str e) ++ nl])
              asked, w'))
      end
    else (Ok tt, (asked, w)).
Proof.
  intros Hs Hc Hcl Hco k asked w'. subst k asked w'.
  unfold stop_server_confirm, bind at 1, get. cbn [fst snd]. rewrite Hc.
  cbn [negb]. unfold bind at 1, messagebox, modify. cbn [fst snd].
  destruct yes; [| reflexivity].
  unfold try_except, bind at 1.
  match goal with
  | |- context [on_service _ _ lib (?g, w)] =>
      rewrite (on_service_inert _ _ lib g w service inert_stop_server)
        by (destruct self; exact Hs)
  end.
  rewrite (stop_server_run lib service w), Hcl, Hco. cbn [fst snd].
  destruct (lib_text lib (List.length (trace w))) as [response|e].
  - unfold bind at 1 2.
    unfold log_to_console at 1 2, bind at 1 2, get, modify. cbn [fst snd].
    pose proof (returns_disconnect_server lib) as Hd.
    match goal with
    | |- context [disconnect_server strftime lib ?st] =>
        specialize (Hd st);
        replace st with
          (set_console_text
             (console_text self
                ++ ["[" ++ strftime (List.length (console_text self)) ++ "] "
                      ++ "> stop" ++ nl;
                    "[" ++ strftime (S (List.length (console_text self)))
                      ++ "] " ++ ("< " ++ response) ++ nl])
             (set_dialogs
                (dialogs self
                   ++ [askyesno "Confirm"
                         "Are you sure you want to stop the server?"])
                self),
           mkWorld (trace w ++ [CallMethod c "stop" []]) (log w)) in *
    end.
    + destruct (disconnect_server strftime lib _) as [[[]|e] st'];
        [reflexivity | discriminate Hd].
    + destruct self; window_unfold; rewrite ?length_app; simpl List.length;
        rewrite ?Nat.add_1_r, <- ?app_assoc; reflexivity.
  - destruct self; window_unfold; reflexivity.
Qed.

Lemma send_command_run_connected (command : string) lib service w c :
  rcon_service.client service = Some c ->
  rcon_service._connected service = true ->
  rcon_service.send_command command lib (service, w)
  = (lib_text lib (List.length (trace w)),
     (service,
      mkWorld (trace w ++ [CallMethod c "run" [AStr command]])
        (log w ++
           [match lib_text lib (List.length (trace w)) with
            | Ok response =>
                mkLog DEBUG
                  ("Command: " ++ command ++ " | Response: " ++ response)
            | Raise e =>
                mkLog ERROR ("Command execution failed: " ++ exn_str e)
            end]))).
Proof. intros Hcl Hco. now rewrite send_command_run, Hcl, Hco. Qed.

(** X22: on a window connected to a connected service, the command line
    sends the stripped text of the entry to the client's [run].  The entry
    is cleared only when [run] returns; when it raises, the text stays in
    the entry and the console shows the failure. *)
Theorem X22_execute_command_clears_entry_on_success
  (lib : Library) (self : MinecraftRCONGUI) (w : World)
  (service : rcon_service.RCONService) (c : Client) :
  rcon_service self = Some service ->
  connected self = true ->
  rcon_service.client service = Some c ->
  rcon_service._connected service = true ->
  let command := str_strip (command_entry self) in
  command <> EmptyString ->
  let k := List.length (console_text self) in
  let out := execute_command strftime str_strip str_lower lib (self, w) in
  exists calls,
    trace (snd (snd out))
    = (trace w ++ CallMethod c "run" [AStr command] :: calls)%list
    /\ match lib_text lib (List.length (trace w)) with
       | Ok response =>
           command_entry (fst (snd out)) = EmptyString
           /\ console_text (fst (snd out))
              = List.app (console_text self)
                  ["[" ++ strftime k ++ "] " ++ ("> " ++ command) ++ nl;
                   "[" ++ strftime (S k) ++ "] " ++ ("< " ++ response) ++ nl]
       | Raise e =>
           calls = []
           /\ fst (snd out)
              = set_console_text
                  (console_text self
                     ++ ["[" ++ strftime k ++ "] "
                           ++ ("Command failed: " ++ exn_str e) ++ nl]) self
       end.
Proof.
  intros Hs Hc Hcl Hco command Hne k out. subst k out.
  assert (E : execute_command strftime str_strip str_lower lib (self, w)
              = match lib_text lib (List.length (trace w)) with
                | Ok response =>
                    (if affects_players str_lower command
                     then refresh_player_list else ret tt) lib
                      (set_command_entry EmptyString
                         (set_console_text
                            (console_text self
                               ++ ["[" ++ strftime
                                            (List.length (console_text self))
                                     ++ "] " ++ ("> " ++ command) ++ nl;
                                   "[" ++ strftime
                                            (S (List.length
                                                  (console_text self)))
                                     ++ "] " ++ ("< " ++ response) ++ nl])
                            self),
                       snd (snd (rcon_service.send_command command lib
                                   (service, w))))
                | Raise e =>
                    (Ok tt,
                     (set_console_text
                        (console_text self
                           ++ ["[" ++ strftime
                                        (List.length (console_text self))
                                 ++ "] "
                                 ++ ("Command failed: " ++ exn_str e) ++ nl])
                        self,
                      snd (snd (rcon_service.send_command command lib
                                  (service, w)))))
                end).
  { unfold execute_command, bind at 1, get. cbn [fst snd]. fold command.
    destruct (String.eqb_spec command EmptyString) as [Ee|_];
      [contradiction |].
    rewrite Hc. cbn [negb]. unfold try_except, bind at 1.
    rewrite (on_service_inert _ _ lib self w service
               (inert_send_command command) Hs).
    rewrite (send_command_run_connected command lib service w c Hcl Hco).
    cbn [fst snd].
    destruct (lib_text lib (List.length (trace w))) as [response|e];
      cbv iota.
    - unfold bind at 1 2 3.
      unfold log_to_console at 1 2, bind at 1 2, get, modify. cbn [fst snd].
      match goal with
      | |- context [(if ?b then _ else _) lib ?st] =>
          assert (Hr : never_raises (if b then refresh_player_list else ret tt))
            by (destruct b; auto with window);
          replace st with
            (set_command_entry EmptyString
               (set_console_text
                  (console_text self
                     ++ ["[" ++ strftime (List.length (console_text self))
                           ++ "] " ++ ("> " ++ command) ++ nl;
                         "[" ++ strftime
                                  (S (List.length (console_text self)))
                           ++ "] " ++ ("< " ++ response) ++ nl]) self),
             mkWorld (trace w ++ [CallMethod c "run" [AStr command]])
               (log w ++
                  [mkLog DEBUG
                     ("Command: " ++ command ++ " | Response: "
                        ++ response)])) in *
      end.
      + match goal with
        | |- (let (r, st') := ?m ?l ?st in _) = ?Y =>
            change Y with (m l st);
            pose proof (Hr l st : is_ok (fst (m l st)) = true) as Hr';
            destruct (m l st) as [[[]|e] st']
        end; [reflexivity | discriminate Hr'].
      + destruct self; window_unfold; rewrite ?length_app;
          simpl List.length; rewrite ?Nat.add_1_r, <- ?app_assoc;
          reflexivity.
    - destruct self; window_unfold; reflexivity. }
  rewrite E.
  rewrite (send_command_run_connected command lib service w c Hcl Hco).
  cbn [fst snd].
  destruct (lib_text lib (List.length (trace w))) as [response|e].
  - destruct (affects_players str_lower command).
    + match goal with
      | |- context [refresh_player_list lib ?st] =>
          destruct (refresh_only_players lib st) as (label & text & Hr);
          destruct (quiet_refresh_player_list lib st)
            as (_ & _ & calls & Ht)
      end.
      exists calls. rewrite Ht, Hr. cbn [fst snd trace].
      rewrite <- app_assoc. split; [reflexivity |].
      destruct self; split; reflexivity.
    + exists []. cbn [fst snd trace ret].
      split; [reflexivity |]. destruct self; split; reflexivity.
  - exists []. cbn [fst snd trace]. split; [reflexivity |].
    split; reflexivity.
Qed.

End Window.

(** ** The dialogs *)

Section DialogResults.

Import Dialogs.

Variable str_strip : string -> string.
Variable py_int : string -> option Z.


End DialogResults.

(** ** The further theorems at concrete services and windows *)

Lemma X1_witness :
  (rcon_service.KickPlayer "Steve" "bye" <> rcon_service.Connect
   /\ rcon_service.KickPlayer "Steve" "bye" <> rcon_service.Disconnect
   /\ rcon_service.is_connected (fst fresh) = false)
  /\ rcon_service.perform lower_ascii (rcon_service.KickPlayer "Steve" "bye")
       lib_ok (fst fresh, snd fresh)
     = (Raise (RuntimeError "Not connected. Call connect() first."),
        (fst fresh, snd fresh)).
Proof.
  assert (H1 : rcon_service.KickPlayer "Steve" "bye" <> rcon_service.Connect)
    by discriminate.
  assert (H2 : rcon_service.KickPlayer "Steve" "bye"
               <> rcon_service.Disconnect) by discriminate.
  split; [repeat split; assumption |].
  exact (X1_every_command_is_guarded lower_ascii lib_ok _ (fst fresh)
           (snd fresh) H1 H2 eq_refl).
Defined.

Lemma X2_witness :
  (rcon_service.GetSeed <> rcon_service.Connect
   /\ rcon_service.GetSeed <> rcon_service.Disconnect)
  /\ fst (snd (rcon_service.perform lower_ascii rcon_service.GetSeed lib_ok
                 (fst connected, snd connected)))
     = fst connected.
Proof.
  assert (H1 : rcon_service.GetSeed <> rcon_service.Connect) by discriminate.
  assert (H2 : rcon_service.GetSeed <> rcon_service.Disconnect)
    by discriminate.
  split; [split; assumption |].
  exact (proj1 (X2_command_leaves_service_as_it_is lower_ascii lib_ok _
                  (fst connected) (snd connected) H1 H2)).
Defined.

Lemma X11_witness :
  lib_new lib_wrong_password (List.length (trace (snd fresh_minimal))) = Ok tt
  /\ is_ok (fst (rcon.connect lib_wrong_password fresh_minimal)) = false
  /\ fst (rcon.send_command "list" lib_wrong_password
            (snd (rcon.connect lib_wrong_password fresh_minimal)))
     = Ok "done".
Proof.
  split; [reflexivity |]. split; [reflexivity |].
  rewrite (X11_minimal_send_command_after_any_connect lib_wrong_password
             fresh_minimal "list" eq_refl).
  reflexivity.
Defined.

Lemma X13_witness :
  MainGUI.connected (fst window_connected) = true
  /\ exists service c,
      MainGUI.rcon_service (fst window_connected) = Some service
      /\ rcon_service.is_connected service = true
      /\ rcon_service.client service = Some c
      /\ (c < List.length (trace (snd window_connected)))%nat.
Proof.
  split; [reflexivity |].
  exact (X13_connected_window_holds_a_connected_service clock strip_spaces
           lower_ascii lib_ok
           [MainGUI.ShowConnectionDialog
              (Some ("127.0.0.1", 25575, "Hatsune_Miku"))] eq_refl).
Defined.

Lemma X14_witness :
  MainGUI.connected MainGUI.__init__ = false
  /\ MainGUI.handle clock strip_spaces lower_ascii MainGUI.SaveAll lib_ok
       (MainGUI.__init__, world0)
     = (Ok tt,
        (MainGUI.set_dialogs
           [MainGUI.showwarning "Not Connected"
              "Please connect to a server first."] MainGUI.__init__,
         world0)).
Proof.
  split; [reflexivity |].
  exact (X14_handlers_warn_when_not_connected clock strip_spaces lower_ascii
           MainGUI.SaveAll lib_ok MainGUI.__init__ world0 eq_refl).
Defined.

Lemma X16_witness :
  (MainGUI.rcon_service (fst window_connected) = Some service_connected
   /\ MainGUI.connected (fst window_connected) = true
   /\ rcon_service.client service_connected = Some 0%nat
   /\ rcon_service._connected service_connected = true)
  /\ MainGUI.players_label
       (fst (snd (MainGUI.refresh_player_list lib_ok
                    (fst window_connected, snd window_connected))))
     = "Players Online: 2/20".
Proof.
  split; [repeat split |].
  rewrite (X16_refresh_player_list_two_replies lib_ok (fst window_connected)
             (snd window_connected) service_connected 0%nat
             eq_refl eq_refl eq_refl eq_refl).
  reflexivity.
Defined.

Lemma X17_witness :
  (MainGUI.connected (fst window_connected) = true
   /\ MainGUI.connect_to_server clock lib_ok
        (fst window_connected, snd window_connected)
      = MainGUI.connect_to_server clock lib_ok
          (snd (MainGUI.disconnect_server clock lib_ok
                  (fst window_connected, snd window_connected))))
  /\ (MainGUI.connected MainGUI.__init__ = false
      /\ MainGUI.connected
           (fst (snd (MainGUI.connect_to_server clock lib_wrong_password
                        (MainGUI.__init__, world0))))
         = false).
Proof.
  split; (split; [reflexivity |]).
  - exact (proj1 (X17_connect_to_server_follows_the_service clock lib_ok
                    (fst window_connected) (snd window_connected)) eq_refl).
  - exact (proj1 (proj2 (X17_connect_to_server_follows_the_service clock
                           lib_wrong_password MainGUI.__init__ world0)
                    eq_refl)).
Defined.

Lemma X18_witness :
  (MainGUI.rcon_service (fst window_connected) = Some service_connected
   /\ MainGUI.connected (fst window_connected) = true
   /\ rcon_service.client service_connected = Some 0%nat
   /\ rcon_service._connected service_connected = true)
  /\ trace (snd (snd (MainGUI.execute_quick_command clock "tps" lib_ok
                        (fst window_connected, snd window_connected))))
     = (trace (snd window_connected)
          ++ [CallMethod 0%nat "run" [AStr "tps"]])%list.
Proof.
  split; [repeat split |].
  rewrite (X18_quick_command_reaches_the_server clock lib_ok
             (fst window_connected) (snd window_connected)
             service_connected 0%nat "tps" eq_refl eq_refl eq_refl eq_refl).
  reflexivity.
Defined.

Lemma X19_witness :
  (MainGUI.rcon_service (fst window_connected) = Some service_connected
   /\ MainGUI.connected (fst window_connected) = true
   /\ rcon_service.client service_connected = Some 0%nat
   /\ rcon_service._connected service_connected = true)
  /\ trace (snd (snd (MainGUI.save_all clock lib_ok
                        (fst window_connected, snd window_connected))))
     = (trace (snd window_connected)
          ++ [CallMethod 0%nat "run" [AStr "save-all flush"]])%list.
Proof.
  split; [repeat split |].
  rewrite (X19_save_all_sends_flush clock lib_ok
             (fst window_connected) (snd window_connected)
             service_connected 0%nat eq_refl eq_refl eq_refl eq_refl).
  reflexivity.
Defined.

Lemma X20_witness :
  (MainGUI.rcon_service (fst window_on_empty_server) = Some service_connected
   /\ MainGUI.connected (fst window_on_empty_server) = true
   /\ rcon_service.client service_connected = Some 0%nat
   /\ rcon_service._connected service_connected = true)
  /\ MainGUI.kick_player_dialog clock (Some ("Steve", "bye"))
       lib_close_raises
       (fst window_on_empty_server, snd window_on_empty_server)
     = (Ok tt,
        (MainGUI.set_dialogs
           [MainGUI.showinfo "No Players" "No players are currently online."]
           (fst window_on_empty_server),
         mkWorld
           (trace (snd window_on_empty_server)
              ++ [CallMethod 0%nat "list" []])
           (log (snd window_on_empty_server)))).
Proof.
  split; [repeat split |].
  exact (proj1 (X20_player_dialogs_list_unguarded clock lib_close_raises
                  (fst window_on_empty_server) (snd window_on_empty_server)
                  service_connected 0%nat (Some ("Steve", "bye"))
                  eq_refl eq_refl eq_refl eq_refl _ eq_refl)).
Defined.

Lemma X21_witness :
  (MainGUI.rcon_service (fst window_connected) = Some service_connected
   /\ MainGUI.connected (fst window_connected) = true
   /\ rcon_service.client service_connected = Some 0%nat
   /\ rcon_service._connected service_connected = true)
  /\ MainGUI.connected
       (fst (snd (MainGUI.stop_server_confirm clock true lib_ok
                    (fst window_connected, snd window_connected))))
     = false.
Proof.
  split; [repeat split |].
  rewrite (X21_stop_server_confirm_disconnects_after_stop clock lib_ok
             (fst window_connected) (snd window_connected)
             service_connected 0%nat true eq_refl eq_refl eq_refl eq_refl).
  reflexivity.
Defined.

Lemma X22_witness :
  (MainGUI.rcon_service (fst window_typed) = Some service_connected
   /\ MainGUI.connected (fst window_typed) = true
   /\ rcon_service.client service_connected = Some 0%nat
   /\ rcon_service._connected service_connected = true
   /\ strip_spaces (MainGUI.command_entry (fst window_typed)) <> EmptyString)
  /\ exists calls,
      trace (snd (snd (MainGUI.execute_command clock strip_spaces
                         lower_ascii lib_ok
                         (fst window_typed, snd window_typed))))
      = (trace (snd window_typed)
           ++ CallMethod 0%nat "run" [AStr "tps"] :: calls)%list.
Proof.
  assert (Hne : strip_spaces (MainGUI.command_entry (fst window_typed))
                <> EmptyString) by discriminate.
  split; [repeat split; assumption |].
  destruct (X22_execute_command_clears_entry_on_success clock strip_spaces
              lower_ascii lib_ok (fst window_typed) (snd window_typed)
              service_connected 0%nat eq_refl eq_refl eq_refl eq_refl Hne)
    as (calls & Ht & _).
  exists calls. exact Ht.
Defined.

